(** * The [stake] and [simulate] commands of [cli/main.py]

    A shallow embedding of the two commands of the nucypher command line
    that move funds and processes: [stake] (list / init / resume /
    confirm-activity / divide / collect-reward / abort) and
    [simulate start].

    Python statements become computations in a small monad that threads a
    [World] (the ledger behind [config.miner_agent], what the operator
    types, the operating system) and either returns a value or raises one
    of the exceptions the source can raise.  Every call the commands make
    on a collaborator is recorded in the [events] of the outcome, so that
    "a deposit was submitted" or "a worker was spawned" are statements
    about that list.  Collaborators return normally unless the model says
    otherwise: the ledger may refuse a transaction, the reactor may raise,
    the operator may decline or stop answering. *)

From Stdlib Require Import Ascii.
From stdpp Require Import base strings pretty gmap list.

Local Open Scope string_scope.
Local Open Scope list_scope.
Local Open Scope Z_scope.

(** ** Python values and built-ins used by the commands *)

Module Py.

(** What a [click] option without a [type=] can hold, plus the integers
    that later assignments store in the same variable. *)
Inductive pyval :=
| PyNone
| PyInt (z : Z)
| PyStr (s : string).

(** Python truthiness: [None], [0] and [''] are false. *)
Definition truthy (v : pyval) : bool :=
  match v with
  | PyNone => false
  | PyInt z => negb (z =? 0)
  | PyStr s => negb (String.eqb s "")
  end.

(** The exceptions that the modelled statements raise. *)
Inductive exn :=
| Abort                               (* click.Abort *)
| RuntimeError (msg : string)
| NotImplementedError
| NameError (name : string)
| AttributeError (attr : string)
| TypeError (msg : string)
| IndexError (msg : string)
| ValueError (msg : string)
| External (what : string).           (* raised by a collaborator *)

Inductive result (A : Type) :=
| Ok (a : A)
| Raise (e : exn).
Arguments Ok {A} a.
Arguments Raise {A} e.

Definition is_ok {A} (r : result A) : bool :=
  match r with Ok _ => true | Raise _ => false end.

(** [l[i]] for a Python list: negative indices count from the end. *)
Definition py_index {A} (l : list A) (i : Z) : result A :=
  let n := Z.of_nat (length l) in
  let j := if i <? 0 then i + n else i in
  if (j <? 0) || (n <=? j) then Raise (IndexError "list index out of range")
  else match l !! Z.to_nat j with
       | Some x => Ok x
       | None => Raise (IndexError "list index out of range")
       end.

(** [enumerate(l, start=k)]. *)
Fixpoint enumerate {A} (start : Z) (l : list A) : list (Z * A) :=
  match l with
  | [] => []
  | x :: l' => (start, x) :: enumerate (start + 1) l'
  end.

(** [str.format] with positional arguments, for templates whose only replacement fields
    are the auto-numbered [{}]: each field takes the next positional
    argument, a field without an argument is an [IndexError], and
    arguments left over are ignored. *)
Fixpoint py_format (template : string) (args : list string) : result string :=
  match template with
  | EmptyString => Ok ""
  | String "{"%char (String "}"%char rest) =>
      match args with
      | [] => Raise (IndexError "Replacement index out of range")
      | a :: args' =>
          match py_format rest args' with
          | Ok s => Ok (a +:+ s)
          | Raise e => Raise e
          end
      end
  | String c rest =>
      match py_format rest args with
      | Ok s => Ok (String c s)
      | Raise e => Raise e
      end
  end.

(** The characters for which [str.isspace] holds.  A character of a
    string stands for the code point of its number, so the strings of the
    model are the Python strings of code points below 256; among these
    the whitespace is: the controls 9 to 13 and 28 to 31, the space,
    NEXT LINE (133) and NO-BREAK SPACE (160). *)
Definition is_py_space (c : ascii) : bool :=
  let n := nat_of_ascii c in
  ((9 <=? n) && (n <=? 13) || (28 <=? n) && (n <=? 32)
   || (n =? 133) || (n =? 160))%nat.

Definition flush (cur : option string) : list string :=
  match cur with
  | Some w => [w]
  | None => []
  end.

Fixpoint py_split_go (cur : option string) (s : string) : list string :=
  match s with
  | EmptyString => flush cur
  | String c s' =>
      if is_py_space c then flush cur ++ py_split_go None s'
      else py_split_go
             (Some (match cur with
                    | Some w => w +:+ String c ""
                    | None => String c ""
                    end)) s'
  end.

(** [s.split()]: the maximal runs of non-whitespace characters. *)
Definition py_split (s : string) : list string := py_split_go None s.

Fixpoint last_char (s : string) : option ascii :=
  match s with
  | EmptyString => None
  | String c EmptyString => Some c
  | String _ s' => last_char s'
  end.

Definition starts_with_sep (s : string) : bool :=
  match s with
  | String "/"%char _ => true
  | _ => false
  end.

Definition ends_with_sep (s : string) : bool :=
  match last_char s with
  | Some "/"%char => true
  | _ => false
  end.

(** One step of [posixpath.join]. *)
Definition path_join2 (path b : string) : string :=
  if starts_with_sep b then b
  else if String.eqb path "" || ends_with_sep path then path +:+ b
  else path +:+ "/" +:+ b.

(** [os.path.join] of [a] and the components [p]. *)
Definition os_path_join (a : string) (p : list string) : string :=
  foldl path_join2 a p.

(** [str(n)] for an integer. *)
Definition str_of_int (n : Z) : string := pretty n.

End Py.
Export Py.

(** ** Data model *)

Abbreviation Address := string.

(** Modelled from the spec: the record behind an entry of
    [miner_agent.get_all_stakes] (the agent's code is not part of the
    sources at hand).  Section 3 of the specification gives a stake an
    owner, a value, a start and an end period, and an index unique per
    owner. *)
Record StakeInfo := mkStake {
  stake_owner : Address;
  stake_value : Z;
  stake_start_period : Z;
  stake_end_period : Z;
  stake_index : nat;
}.

(** The transport that [reactor.spawnProcess] returns. *)
Record ProcessHandle := mkProcess {
  pid : Z;
  command : list string;
}.

(** The contract deployers of [simulate start].  A deployer of a dependent
    contract is constructed from the agent of the contract it depends on;
    [make_agent] is the only way to obtain an agent. *)
Inductive deployer :=
| NucypherTokenDeployer (deployer_address : Address)
| MinerEscrowDeployer (token_agent : agent) (deployer_address : Address)
    (secret_hash : string)
| PolicyManagerDeployer (miner_agent : agent) (deployer_address : Address)
    (secret_hash : string)
with agent :=
| make_agent (d : deployer).

(** What [click.echo] prints.  Each constructor stands for one echo
    statement of the source and carries the values formatted into it. *)
Inductive message :=
| AccountRow (i : Z) (a : Address)
| SelectEthereumAddress
| StakeRow (i : Z) (s : StakeInfo)
| CurrentBalance (balance : Z)
| DurationBounds
| StagedStake (a : Address) (value duration start_period end_period : Z)
| StakeSelectionRow (i : Z) (s : StakeInfo)
| DividePreview (current : StakeInfo) (target_value new_end_period : Z)
| BootstrappingNetwork
| AirdroppingTokens (amount : Z) (recipients : nat)
| WritingRegistry
| ReadyToRunSwarm
| InitializedNewStake (a : Address) (value periods : Z)
| SpawningNode (number : Z)
| StartedSimulatedUrsula (rest_uri : string)
| StartingReactor
| RemovingRegistry
| StoppingProcesses
| Killed (p : ProcessHandle)
| SimulationCompleted.

(** The observable actions of the two commands, in the order in which the
    source performs them. *)
Inductive event :=
| Echo (m : message)
| Confirm (text : string) (answer : bool)
| Prompt (text : string) (answer : Z)
| ConnectToContracts
| DepositTokens (amount lock_periods : Z) (sender_address : Address)
| ConfirmActivity (node_address : Address)
| DivideStake (miner_address : Address) (index : pyval) (value : pyval)
    (periods : Z)
| SpawnProcess (p : Z) (executable : string) (args : list string)
| NewTesterBlockchain (provider_uri : string) (test_accounts : Z)
| SetDeployerAddress (a : Address)
| EtherAirdrop (amount : Z)
| Arm (d : deployer)
| Deploy (d : deployer)
| TokenAirdrop (token_agent : agent) (origin : Address)
    (addresses : list Address) (amount : Z)
| RegistryCommit (filepath : string)
| InitializeStake (checksum_address : Address) (amount lock_periods : Z)
| ReactorRun
| OsRemove (filepath : string)
| OsKill (p : Z) (signal : Z).

(** ** The ledger behind [config.token_agent] and [config.miner_agent]

    The agents live in [nucypher.blockchain.eth.agents], outside the
    sources at hand; the commands are written against this interface and
    hold for every implementation of it. *)
Class LedgerGateway (L : Type) := {
  get_all_stakes : L → Address → list StakeInfo;
  get_balance : L → Address → Z;
  get_current_period : L → Z;
  deposit_tokens : Z → Z → Address → L → result L;
  confirm_activity : Address → L → result L;
  divide_stake : Address → pyval → pyval → Z → L → result L;
}.

(** Names that [cli/main.py] reads from its module namespace.  The
    constants come from modules outside the sources at hand and are kept
    abstract.  [DEFAULT_SIMULATION_REGISTRY_FILEPATH] is read twice by
    [simulate] but [main.py] neither defines nor imports it: [None] is the
    namespace of the module as it is written, where reading the name
    raises [NameError]; [Some p] is the namespace with the name bound. *)
Record Globals := mkGlobals {
  BASE_DIR : string;
  DISPATCHER_SECRET_LENGTH : Z;
  MIN_ALLOWED_LOCKED : Z;
  MIN_LOCKED_PERIODS : Z;
  MAX_MINTING_PERIODS : Z;
  DEVELOPMENT_TOKEN_AIRDROP_AMOUNT : Z;
  DEVELOPMENT_ETH_AIRDROP_AMOUNT : Z;
  DEFAULT_SIMULATION_REGISTRY_FILEPATH : option string;
}.

(** The attributes of the click configuration object that the two
    commands read.  [accounts] is the list of the connected chain, as
    [connect_to_blockchain] stores it; before that call the attribute
    holds the constant [NO_BLOCKCHAIN_CONNECTION] and not a list, a state
    that the record leaves out.  No statement of [main.py] ever assigns
    [sim_processes], so on the object that click hands to [simulate] the
    attribute is absent ([None]). *)
Record NucypherClickConfig := mkConfig {
  accounts : list Address;
  sim_processes : option (list ProcessHandle);
}.

(** The configuration object once [connect_to_blockchain] has stored the
    accounts [accts] on it: nothing has assigned [sim_processes]. *)
Definition click_config (accts : list Address) : NucypherClickConfig :=
  {| accounts := accts; sim_processes := None |}.

(** The test chain that [simulate start] builds and the way its reactor
    run ends; both are decided outside the command. *)
Record Tester := mkTester {
  w3_accounts : Z → list Address;     (* accounts for a given [test_accounts] *)
  token_balance : Address → Z;         (* [miner.token_balance] *)
  reactor_outcome : option exn;        (* [None]: [reactor.run()] returns *)
}.

(** ** Worlds and computations *)

(** What a command can read and change while it runs. *)
Record World (L : Type) := mkWorld {
  ledger : L;
  confirm_answers : list bool;   (* answers to the coming [click.confirm]s *)
  int_answers : list Z;          (* answers to the coming integer prompts *)
  random_draws : list Z;         (* entropy consumed by [random.randint] *)
  urandom_results : list string; (* results of the coming [os.urandom]s *)
  next_pid : Z;                  (* number of the next process started *)
}.
Arguments mkWorld {L}.
Arguments ledger {L}.
Arguments confirm_answers {L}.
Arguments int_answers {L}.
Arguments random_draws {L}.
Arguments urandom_results {L}.
Arguments next_pid {L}.

(** How a computation ends: what it returned or raised, the world it
    left, and the events it performed, oldest first. *)
Record Outcome (L A : Type) := mkOutcome {
  res : result A;
  world : World L;
  events : list event;
}.
Arguments mkOutcome {L A}.
Arguments res {L A}.
Arguments world {L A}.
Arguments events {L A}.

Definition M (L A : Type) : Type := World L → Outcome L A.

Definition ret {L A} (a : A) : M L A := fun w => mkOutcome (Ok a) w [].

Definition raise {L A} (e : exn) : M L A := fun w => mkOutcome (Raise e) w [].

Definition bind {L A B} (m : M L A) (k : A → M L B) : M L B := fun w =>
  match m w with
  | mkOutcome (Ok a) w1 es1 =>
      match k a w1 with
      | mkOutcome r w2 es2 => mkOutcome r w2 (es1 ++ es2)
      end
  | mkOutcome (Raise e) w1 es1 => mkOutcome (Raise e) w1 es1
  end.

Notation "x <- m ;; k" := (bind m (fun x => k))
  (at level 100, m at next level, right associativity).
Notation "m ;; k" := (bind m (fun _ => k))
  (at level 100, right associativity).

Definition lift {L A} (r : result A) : M L A := fun w => mkOutcome r w [].

(** [try: body finally: handler].  The handler always runs; an exception
    it raises replaces the outcome of the body. *)
Definition try_finally {L} (body handler : M L unit) : M L unit := fun w =>
  match body w with
  | mkOutcome r w1 es1 =>
      match handler w1 with
      | mkOutcome (Ok _) w2 es2 => mkOutcome r w2 (es1 ++ es2)
      | mkOutcome (Raise e) w2 es2 => mkOutcome (Raise e) w2 (es1 ++ es2)
      end
  end.

(** [for x in l: body x]. *)
Fixpoint for_each {L A} (l : list A) (body : A → M L unit) : M L unit :=
  match l with
  | [] => ret tt
  | x :: l' => body x ;; for_each l' body
  end.

Definition emit {L} (e : event) : M L unit := fun w => mkOutcome (Ok tt) w [e].

Definition echo {L} (m : message) : M L unit := emit (Echo m).

(** [click.confirm(text, abort=...)].  The operator's next answer is
    consumed; at the end of the input click raises [Abort], as it does
    for a negative answer under [abort=True]. *)
Definition confirm {L} (text : string) (abort : bool) : M L bool := fun w =>
  match confirm_answers w with
  | [] => mkOutcome (Raise Abort) w []
  | b :: rest =>
      let w' := mkWorld (ledger w) rest (int_answers w) (random_draws w)
                  (urandom_results w) (next_pid w) in
      mkOutcome (if abort && negb b then Raise Abort else Ok b) w'
        [Confirm text b]
  end.

(** [click.prompt(text, type=int)]: entries that are not integers are
    asked again, so only the integer that is finally accepted counts. *)
Definition prompt_int {L} (text : string) : M L Z := fun w =>
  match int_answers w with
  | [] => mkOutcome (Raise Abort) w []
  | z :: rest =>
      mkOutcome (Ok z)
        (mkWorld (ledger w) (confirm_answers w) rest (random_draws w)
           (urandom_results w) (next_pid w))
        [Prompt text z]
  end.

(** [random.randint(a, b)], which is [randrange(a, b + 1)]: a value of
    [[a, b]] chosen by the next draw.  On an empty range [randrange]
    raises [ValueError] with a message that names the start, the stop and
    the width of the range. *)
Definition randint {L} (a b : Z) : M L Z := fun w =>
  if b <? a then
    mkOutcome
      (Raise (ValueError ("empty range for randrange() (" +:+ str_of_int a
                          +:+ ", " +:+ str_of_int (b + 1)
                          +:+ ", " +:+ str_of_int (b + 1 - a) +:+ ")")))
      w []
  else
    mkOutcome (Ok (a + hd 0 (random_draws w) `mod` (b - a + 1)))
      (mkWorld (ledger w) (confirm_answers w) (int_answers w)
         (tl (random_draws w)) (urandom_results w) (next_pid w))
      [].

(** [os.urandom(n)]. *)
Definition urandom {L} (n : Z) : M L string := fun w =>
  mkOutcome (Ok (hd "" (urandom_results w)))
    (mkWorld (ledger w) (confirm_answers w) (int_answers w) (random_draws w)
       (tl (urandom_results w)) (next_pid w))
    [].

(** [reactor.spawnProcess(UrsulaProcessProtocol(command=args), executable,
    args)]: the operating system starts a process and numbers it. *)
Definition spawnProcess {L} (executable : string) (args : list string)
  : M L ProcessHandle := fun w =>
  mkOutcome (Ok (mkProcess (next_pid w) args))
    (mkWorld (ledger w) (confirm_answers w) (int_answers w) (random_draws w)
       (urandom_results w) (next_pid w + 1))
    [SpawnProcess (next_pid w) executable args].

(** A state-changing call on the ledger: the call is recorded when it is
    made, then the ledger either commits it or raises. *)
Definition ledger_call {L} (e : event) (f : L → result L) : M L unit :=
  fun w =>
    match f (ledger w) with
    | Ok l' =>
        mkOutcome (Ok tt)
          (mkWorld l' (confirm_answers w) (int_answers w) (random_draws w)
             (urandom_results w) (next_pid w))
          [e]
    | Raise x => mkOutcome (Raise x) w [e]
    end.

Definition read_ledger {L A} (f : L → A) : M L A := fun w => mkOutcome (Ok (f (ledger w))) w [].

(** ** The [stake] command *)

Section Stake.

Context {L : Type} `{LedgerGateway L}.

(** The body of [if not address:]: the accounts are listed and the
    operator picks one.  The listing loop rebinds both [index] and
    [address], so afterwards [index] holds the last position listed. *)
Definition choose_address (config : NucypherClickConfig) (index : pyval)
    : M L (Address * pyval) :=
  for_each (enumerate 0 (accounts config))
    (fun ia => echo (AccountRow (fst ia) (snd ia))) ;;
  echo SelectEthereumAddress ;;
  account_selection <-
    prompt_int ("Enter 0-" +:+ str_of_int (Z.of_nat (length (accounts config)))) ;;
  address <- lift (py_index (accounts config) account_selection) ;;
  ret (address,
       match accounts config with
       | [] => index
       | _ => PyInt (Z.of_nat (length (accounts config)) - 1)
       end).

(** [if not address: ...]: an absent or empty [--address] is replaced by
    the operator's choice. *)
Definition select_address (config : NucypherClickConfig)
    (address : option string) (index : pyval) : M L (Address * pyval) :=
  match address with
  | Some a =>
      if negb (String.eqb a "") then ret (a, index)
      else choose_address config index
  | None => choose_address config index
  end.

(** [action == 'list'] *)
Definition stake_list (address : Address) : M L unit :=
  live_stakes <- read_ledger (fun l => get_all_stakes l address) ;;
  for_each (enumerate 0 live_stakes)
    (fun row => echo (StakeRow (fst row) (snd row))).

(** [action == 'init'] *)
Definition stake_init (address : Address) : M L unit :=
  confirm "Stage a new stake?" true ;;
  live_stakes <- read_ledger (fun l => get_all_stakes l address) ;;
  if (0 <? length live_stakes)%nat
  then raise (RuntimeError ("There is an existing stake for " +:+ address))
  else
    (balance <- read_ledger (fun l => get_balance l address) ;;
     echo (CurrentBalance balance) ;;
     value <- prompt_int "Enter stake value" ;;
     echo DurationBounds ;;
     duration <- prompt_int "Enter stake duration in days" ;;
     start_period <- read_ledger get_current_period ;;
     let end_period := start_period + duration in
     echo (StagedStake address value duration start_period end_period) ;;
     correct <- confirm "Is this correct?" false ;;
     if negb correct then raise NotImplementedError
     else
       (ledger_call (DepositTokens value duration address)
          (deposit_tokens value duration address) ;;
        let proc_params := ["run_ursula"] in
        ursula_proc <- spawnProcess "nucypher-cli" proc_params ;;
        ret tt)).

(** [action == 'resume'] *)
Definition stake_resume : M L unit :=
  let proc_params := ["run_ursula"] in
  ursula_proc <- spawnProcess "nucypher-cli" proc_params ;;
  ret tt.

(** [action == 'confirm-activity'] *)
Definition stake_confirm_activity (address : Address) : M L unit :=
  stakes <- read_ledger (fun l => get_all_stakes l address) ;;
  if (length stakes =? 0)%nat
  then raise (RuntimeError ("There are no active stakes for " +:+ address))
  else ledger_call (ConfirmActivity address) (confirm_activity address).

(** [stakes[index]] *)
Definition subscript (stakes : list StakeInfo) (index : pyval) : M L StakeInfo :=
  match index with
  | PyInt i => lift (py_index stakes i)
  | PyStr _ => raise (TypeError "list indices must be integers or slices, not str")
  | PyNone => raise (TypeError "list indices must be integers or slices, not NoneType")
  end.

(** [action == 'divide'].  [value] is the [--value] option of the command;
    the branch never assigns it. *)
Definition stake_divide (address : Address) (index value : pyval) : M L unit :=
  stakes <- read_ledger (fun l => get_all_stakes l address) ;;
  if (length stakes =? 0)%nat
  then raise (RuntimeError ("There are no active stakes for " +:+ address))
  else
    (index <-
       (if negb (truthy index)
        then
          (for_each (enumerate 0 stakes)
             (fun row => echo (StakeSelectionRow (fst row) (snd row))) ;;
           i <- prompt_int "Select a stake to divide" ;;
           ret (PyInt i))
        else ret index) ;;
     target_value <- prompt_int "Enter new target value" ;;
     extension <- prompt_int "Enter number of periods to extend" ;;
     current <- subscript stakes index ;;
     echo (DividePreview current target_value (target_value + extension)) ;;
     confirm "Is this correct?" true ;;
     ledger_call (DivideStake address index value extension)
       (divide_stake address index value extension)).

(** [action == 'abort'] *)
Definition stake_abort : M L unit :=
  confirm "Are you sure you want to abort the staking process?" true ;;
  raise NotImplementedError.

Definition stake (config : NucypherClickConfig) (action : string)
    (address : option string) (index value duration : pyval) : M L unit :=
  emit ConnectToContracts ;;
  ai <- select_address config address index ;;
  let address := fst ai in
  let index := snd ai in
  if String.eqb action "list" then stake_list address
  else if String.eqb action "init" then stake_init address
  else if String.eqb action "resume" then stake_resume
  else if String.eqb action "confirm-activity" then stake_confirm_activity address
  else if String.eqb action "divide" then stake_divide address index value
  else if String.eqb action "collect-reward" then raise NotImplementedError
  else if String.eqb action "abort" then stake_abort
  else ret tt.

End Stake.

(** ** A ledger to run the commands against *)

(** Modelled from the spec: the state of the LedgerGateway (the agents'
    code in [nucypher.blockchain.eth.agents] is missing from the sources
    at hand).  Its operations follow sections 3 and 4.1 of the
    specification.  The ledger keeps the invariant of a stake: it commits
    a deposit only if the value is within [[MIN_ALLOWED_LOCKED, balance]]
    and the duration within [[MIN_LOCKED_PERIODS, MAX_MINTING_PERIODS]],
    and the committed stake starts in the current period and ends
    [duration] periods later.  A division keeps the remainder at the
    divided index and adds the continuing stake with the end period moved
    by the extension; a division whose index or value is not an integer
    cannot be encoded as a transaction and is refused.  An activity
    confirmation is recorded once per period. *)
Record SpecLedger := mkLedger {
  stakes_of : gmap string (list StakeInfo);
  balance_of : gmap string Z;
  current_period : Z;
  confirmed : list (Address * Z);
  min_allowed_locked : Z;        (* the protocol's MIN_ALLOWED_LOCKED *)
  min_locked_periods : Z;        (* the protocol's MIN_LOCKED_PERIODS *)
  max_minting_periods : Z;       (* the protocol's MAX_MINTING_PERIODS *)
}.

Definition spec_get_all_stakes (l : SpecLedger) (a : Address) : list StakeInfo :=
  default [] (stakes_of l !! a).

Definition spec_get_balance (l : SpecLedger) (a : Address) : Z :=
  default 0 (balance_of l !! a).

Definition with_stakes (stakes : gmap string (list StakeInfo)) (l : SpecLedger)
    : SpecLedger :=
  mkLedger stakes (balance_of l) (current_period l) (confirmed l)
    (min_allowed_locked l) (min_locked_periods l) (max_minting_periods l).

Definition spec_deposit_tokens (amount lock_periods : Z) (a : Address)
    (l : SpecLedger) : result SpecLedger :=
  if (min_allowed_locked l <=? amount) && (amount <=? spec_get_balance l a)
     && (min_locked_periods l <=? lock_periods)
     && (lock_periods <=? max_minting_periods l)
  then
    let old := spec_get_all_stakes l a in
    let s := mkStake a amount (current_period l)
               (current_period l + lock_periods) (length old) in
    Ok (with_stakes (<[a := old ++ [s]]> (stakes_of l)) l)
  else Raise (External "InvalidStakeRangeError").

Definition spec_confirm_activity (a : Address) (l : SpecLedger)
    : result SpecLedger :=
  if bool_decide ((a, current_period l) ∈ confirmed l) then Ok l
  else Ok (mkLedger (stakes_of l) (balance_of l) (current_period l)
             ((a, current_period l) :: confirmed l)
             (min_allowed_locked l) (min_locked_periods l)
             (max_minting_periods l)).

Definition spec_divide_stake (a : Address) (index value : pyval)
    (periods : Z) (l : SpecLedger) : result SpecLedger :=
  match index, value with
  | PyInt i, PyInt v =>
      let old := spec_get_all_stakes l a in
      match (if i <? 0 then None else old !! Z.to_nat i) with
      | None => Raise (External "StakeNotFoundError")
      | Some s =>
          if (v <=? stake_value s) && (0 <=? periods) then
            let remainder :=
              mkStake a (stake_value s - v) (stake_start_period s)
                (stake_end_period s) (stake_index s) in
            let continuing :=
              mkStake a v (stake_start_period s)
                (stake_end_period s + periods) (length old) in
            Ok (with_stakes
                  (<[a := <[Z.to_nat i := remainder]> old ++ [continuing]]>
                     (stakes_of l))
                  l)
          else Raise (External "InvalidStakeRangeError")
      end
  | _, _ => Raise (External "the transaction arguments are not integers")
  end.

#[export] Instance spec_ledger : LedgerGateway SpecLedger := {
  get_all_stakes := spec_get_all_stakes;
  get_balance := spec_get_balance;
  get_current_period := current_period;
  deposit_tokens := spec_deposit_tokens;
  confirm_activity := spec_confirm_activity;
  divide_stake := spec_divide_stake;
}.

(** A world in which nothing has happened yet. *)
Definition initial_world {L} (l : L) (confirms : list bool) (ints : list Z)
    : World L :=
  mkWorld l confirms ints [] [] 1.

(** A ledger holding the given stakes and balances, in period [p], for a
    protocol that locks at least 15 tokens for 30 to 365 periods. *)
Definition ledger_at (p : Z) (stakes : list (Address * list StakeInfo))
    (balances : list (Address * Z)) : SpecLedger :=
  mkLedger (list_to_map stakes) (list_to_map balances) p [] 15 30 365.

(** ** The [simulate start] command *)

Section Simulate.

Context {L : Type}.

(** Reading a module-level name. *)
Definition read_global {A} (name : string) (v : option A) : M L A :=
  match v with
  | Some x => ret x
  | None => raise (NameError name)
  end.

(** Reading an attribute of the configuration object. *)
Definition read_attribute {A} (attr : string) (v : option A) : M L A :=
  match v with
  | Some x => ret x
  | None => raise (AttributeError attr)
  end.

Definition newline : string := String (ascii_of_nat 10) "".

(** The triple-quoted template of the worker's command line. *)
Definition ursula_template : string :=
  newline +:+ "            python3 {} run_ursula --rest-port {} --db-name {}"
  +:+ newline +:+ "            ".

(** [os.path.join(BASE_DIR, 'cli', 'main.py')] *)
Definition cli_exec (g : Globals) : string :=
  os_path_join (BASE_DIR g) ["cli"; "main.py"].

(** The argument vector before the mode-dependent arguments are added:
    the template formatted with
    [(python_exec, cli_exec, rest_port, db_name)], then split. *)
Definition base_proc_params (g : Globals) (rest_port : Z) (db_name : string)
    : result (list string) :=
  let python_exec := "python" in
  match py_format ursula_template
          [python_exec; cli_exec g; str_of_int rest_port; db_name] with
  | Ok s => Ok (py_split s)
  | Raise e => Raise e
  end.

(** The arguments added to the vector for a participant of the chain. *)
Definition checksum_params (sim_address : Address) : result (list string) :=
  match py_format "--checksum-address {}" [sim_address] with
  | Ok s => Ok (py_split s)
  | Raise e => Raise e
  end.

(** The complete argument vector handed to [reactor.spawnProcess]. *)
Definition proc_params (g : Globals) (federated_only : bool) (rest_port : Z)
    (db_name : string) (sim_address : Address) : result (list string) :=
  match base_proc_params g rest_port db_name with
  | Raise e => Raise e
  | Ok params =>
      if federated_only then Ok (params ++ ["--federated-only"])
      else match checksum_params sim_address with
           | Ok extra => Ok (params ++ extra)
           | Raise e => Raise e
           end
  end.

(** The [if not federated_only:] block that opens [simulate start]: the
    test chain is built, the three contracts are deployed, the other
    accounts are funded and the registry is committed.  The block binds
    [everyone_else], which it returns. *)
Definition bootstrap_blockchain (g : Globals) (t : Tester) (nodes : Z)
    (geth : bool) : M L (list Address) :=
  let test_provider_uri :=
    if geth then "ipc:///tmp/geth.ipc" else "pyevm://tester" in
  emit (NewTesterBlockchain test_provider_uri nodes) ;;
  match w3_accounts t nodes with
  | [] => raise (ValueError "not enough values to unpack (expected at least 1, got 0)")
  | origin :: everyone_else =>
      emit (SetDeployerAddress origin) ;;
      emit (EtherAirdrop (DEVELOPMENT_ETH_AIRDROP_AMOUNT g)) ;;
      confirm ("Deploy all nucypher contracts to " +:+ test_provider_uri +:+ "?") true ;;
      echo BootstrappingNetwork ;;
      let token_deployer := NucypherTokenDeployer origin in
      emit (Arm token_deployer) ;;
      emit (Deploy token_deployer) ;;
      let token_agent := make_agent token_deployer in
      miners_escrow_secret <- urandom (DISPATCHER_SECRET_LENGTH g) ;;
      let miner_escrow_deployer :=
        MinerEscrowDeployer token_agent origin miners_escrow_secret in
      emit (Arm miner_escrow_deployer) ;;
      emit (Deploy miner_escrow_deployer) ;;
      let miner_agent := make_agent miner_escrow_deployer in
      policy_manager_secret <- urandom (DISPATCHER_SECRET_LENGTH g) ;;
      let policy_manager_deployer :=
        PolicyManagerDeployer miner_agent origin policy_manager_secret in
      emit (Arm policy_manager_deployer) ;;
      emit (Deploy policy_manager_deployer) ;;
      let airdrop_amount := DEVELOPMENT_TOKEN_AIRDROP_AMOUNT g in
      echo (AirdroppingTokens airdrop_amount (length everyone_else)) ;;
      emit (TokenAirdrop token_agent origin everyone_else airdrop_amount) ;;
      echo WritingRegistry ;;
      filepath <- read_global "DEFAULT_SIMULATION_REGISTRY_FILEPATH"
                    (DEFAULT_SIMULATION_REGISTRY_FILEPATH g) ;;
      emit (RegistryCommit filepath) ;;
      ret everyone_else
  end.

(** What [sim_addresses] is bound to. *)
Inductive sim_addresses_value :=
| PyList (l : list Address)
| PyNotImplemented.

(** [enumerate(sim_addresses, start=start_port)] *)
Definition enumerate_addresses (sim_addresses : sim_addresses_value)
    (start : Z) : M L (list (Z * Address)) :=
  match sim_addresses with
  | PyList l => ret (enumerate start l)
  | PyNotImplemented =>
      raise (TypeError "'NotImplementedType' object is not iterable")
  end.

(** One iteration of the swarm loop. *)
Definition spawn_ursula (g : Globals) (t : Tester) (federated_only : bool)
    (counter sim_port_number : Z) (sim_address : Address) : M L unit :=
  let rest_port := sim_port_number in
  db_name <- lift (py_format "sim-{}" [str_of_int rest_port]) ;;
  params <- lift (base_proc_params g rest_port db_name) ;;
  params <-
    (if federated_only then ret (params ++ ["--federated-only"])
     else
       (let balance := token_balance t sim_address in
        value <- randint (MIN_ALLOWED_LOCKED g) balance ;;
        periods <- randint (MIN_LOCKED_PERIODS g) (MAX_MINTING_PERIODS g) ;;
        emit (InitializeStake sim_address value periods) ;;
        echo (InitializedNewStake sim_address value periods) ;;
        extra <- lift (checksum_params sim_address) ;;
        ret (params ++ extra))) ;;
  echo (SpawningNode (counter + 1)) ;;
  ursula_proc <- spawnProcess (cli_exec g) params ;;
  echo (StartedSimulatedUrsula ("http://localhost:" +:+ str_of_int rest_port)) ;;
  ret tt.

(** The swarm loop, with the [counter] it keeps. *)
Fixpoint spawn_loop (g : Globals) (t : Tester) (federated_only : bool)
    (counter : Z) (items : list (Z * Address)) : M L Z :=
  match items with
  | [] => ret counter
  | (sim_port_number, sim_address) :: rest =>
      spawn_ursula g t federated_only counter sim_port_number sim_address ;;
      spawn_loop g t federated_only (counter + 1) rest
  end.

(** [reactor.run()] *)
Definition reactor_run (t : Tester) : M L unit :=
  emit ReactorRun ;;
  match reactor_outcome t with
  | None => ret tt
  | Some e => raise e
  end.

(** The [finally:] block around [reactor.run()].  [os.remove] and
    [os.kill] are recorded as events; that the operating system may
    refuse either call is not modelled. *)
Definition cleanup (g : Globals) (config : NucypherClickConfig)
    (federated_only : bool) : M L unit :=
  (if negb federated_only
   then
     (echo RemovingRegistry ;;
      filepath <- read_global "DEFAULT_SIMULATION_REGISTRY_FILEPATH"
                    (DEFAULT_SIMULATION_REGISTRY_FILEPATH g) ;;
      emit (OsRemove filepath))
   else ret tt) ;;
  echo StoppingProcesses ;;
  processes <- read_attribute "sim_processes" (sim_processes config) ;;
  for_each processes
    (fun process => emit (OsKill (pid process) 9) ;; echo (Killed process)) ;;
  echo SimulationCompleted.

(** [simulate(config, 'start', nodes, federated_only, geth)] *)
Definition simulate_start (g : Globals) (t : Tester)
    (config : NucypherClickConfig) (nodes : Z) (federated_only geth : bool)
    : M L unit :=
  everyone_else <-
    (if negb federated_only
     then (l <- bootstrap_blockchain g t nodes geth ;; ret (Some l))
     else ret None) ;;
  echo ReadyToRunSwarm ;;
  let sim_addresses :=
    match everyone_else with
    | Some l => PyList l
    | None => PyNotImplemented
    end in
  let start_port := 8787 in
  items <- enumerate_addresses sim_addresses start_port ;;
  counter <- spawn_loop g t federated_only 0 items ;;
  echo StartingReactor ;;
  confirm "Start the reactor?" true ;;
  try_finally (reactor_run t) (cleanup g config federated_only).

End Simulate.

(** [main.py] as it is written leaves the registry path unbound. *)
Definition as_written (g : Globals) : Prop :=
  DEFAULT_SIMULATION_REGISTRY_FILEPATH g = None.

(** Sample values for the imported constants, in the namespace of the
    module as it is written. *)
Definition sample_globals : Globals :=
  mkGlobals "/opt/nucypher" 32 15 30 365 1000000 1000000 None.

(** The namespace [g] with the registry path bound to [p].  This is not
    the namespace of [main.py], which leaves the name unbound. *)
Definition with_registry_path (p : string) (g : Globals) : Globals :=
  mkGlobals (BASE_DIR g) (DISPATCHER_SECRET_LENGTH g) (MIN_ALLOWED_LOCKED g)
    (MIN_LOCKED_PERIODS g) (MAX_MINTING_PERIODS g)
    (DEVELOPMENT_TOKEN_AIRDROP_AMOUNT g) (DEVELOPMENT_ETH_AIRDROP_AMOUNT g)
    (Some p).

(** A test chain with the given accounts, each holding 1000 tokens. *)
Definition sample_tester (accts : list Address) (outcome : option exn) : Tester :=
  mkTester (fun _ => accts) (fun _ => 1000) outcome.

(** ** Classifying events *)

Definition is_deposit (e : event) : bool :=
  match e with DepositTokens _ _ _ => true | _ => false end.

Definition is_divide (e : event) : bool :=
  match e with DivideStake _ _ _ _ => true | _ => false end.

Definition is_spawn (e : event) : bool :=
  match e with SpawnProcess _ _ _ => true | _ => false end.

Definition is_kill (e : event) : bool :=
  match e with OsKill _ _ => true | _ => false end.

Definition is_deployment (e : event) : bool :=
  match e with Arm _ | Deploy _ => true | _ => false end.

(** Events of the dialogue with the operator that commit nothing. *)
Definition is_dialogue (e : event) : bool :=
  match e with Echo _ | Prompt _ _ => true | _ => false end.

(** The deposits, the spawned processes and the kill signals among the
    events of a run. *)
Definition deposits (es : list event) : list event := List.filter is_deposit es.

Definition spawns (es : list event) : list event := List.filter is_spawn es.

Definition kills (es : list event) : list event := List.filter is_kill es.

#[export] Instance pyval_eq_dec : EqDecision pyval.
Proof. solve_decision. Defined.

(** A division, if [e] is one, carries [value] as the value to split off. *)
Definition carries_value (value : pyval) (e : event) : bool :=
  match e with
  | DivideStake _ _ v _ => bool_decide (v = value)
  | _ => true
  end.

(** [m] performs only events accepted by [P], from every world. *)
Definition emits_only {L A} (P : event → bool) (m : M L A) : Prop :=
  ∀ w, forallb P (events (m w)) = true.

(** ** Sample worlds *)

Definition sample_config : NucypherClickConfig :=
  click_config ["0xO"; "0xA"; "0xB"].

(** Period 10; the account [0xA] holds 500 tokens and has no stake. *)
Definition fresh_world (confirms : list bool) (ints : list Z) : World SpecLedger :=
  initial_world (ledger_at 10 [] [("0xA", 500)]) confirms ints.

Definition sample_stake : StakeInfo := mkStake "0xA" 1000 5 45 0.

(** Period 10; the account [0xA] has the stake [sample_stake]. *)
Definition staked_world (confirms : list bool) (ints : list Z) : World SpecLedger :=
  initial_world (ledger_at 10 [("0xA", [sample_stake])] [("0xA", 500)])
    confirms ints.

(** The events with which an accepted, non-federated [simulate start]
    opens, up to the announcement of the registry commit: [s1] and [s2]
    are the two secrets drawn for the dispatchers. *)
Definition deployment_events (g : Globals) (nodes : Z) (geth : bool)
    (origin : Address) (everyone_else : list Address) (s1 s2 : string)
    : list event :=
  let uri := if geth then "ipc:///tmp/geth.ipc" else "pyevm://tester" in
  let token_deployer := NucypherTokenDeployer origin in
  let miner_escrow_deployer :=
    MinerEscrowDeployer (make_agent token_deployer) origin s1 in
  let policy_manager_deployer :=
    PolicyManagerDeployer (make_agent miner_escrow_deployer) origin s2 in
  [ NewTesterBlockchain uri nodes;
    SetDeployerAddress origin;
    EtherAirdrop (DEVELOPMENT_ETH_AIRDROP_AMOUNT g);
    Confirm ("Deploy all nucypher contracts to " +:+ uri +:+ "?") true;
    Echo BootstrappingNetwork;
    Arm token_deployer;
    Deploy token_deployer;
    Arm miner_escrow_deployer;
    Deploy miner_escrow_deployer;
    Arm policy_manager_deployer;
    Deploy policy_manager_deployer;
    Echo (AirdroppingTokens (DEVELOPMENT_TOKEN_AIRDROP_AMOUNT g)
            (length everyone_else));
    TokenAirdrop (make_agent token_deployer) origin everyone_else
      (DEVELOPMENT_TOKEN_AIRDROP_AMOUNT g);
    Echo WritingRegistry ].

(** A run of [simulate start] on a test chain of three accounts, with the
    given answers of the operator and the given end of [reactor.run()]. *)
Definition sample_simulation (g : Globals) (confirms : list bool)
    (outcome : option exn) : Outcome unit unit :=
  simulate_start g (sample_tester ["0xO"; "0xA"; "0xB"] outcome)
    (click_config ["0xO"; "0xA"; "0xB"]) 3 false false
    (initial_world tt confirms []).

Definition is_reactor_run (e : event) : bool :=
  match e with ReactorRun => true | _ => false end.

(** ** Further vocabulary for the properties of the commands *)

(** The [if action == ...] chain of [stake], on the address and the index
    that the address selection leaves. *)
Definition stake_branch {L} `{LedgerGateway L} (action : string)
    (address : Address) (index value : pyval) : M L unit :=
  if String.eqb action "list" then stake_list address
  else if String.eqb action "init" then stake_init address
  else if String.eqb action "resume" then stake_resume
  else if String.eqb action "confirm-activity" then stake_confirm_activity address
  else if String.eqb action "divide" then stake_divide address index value
  else if String.eqb action "collect-reward" then raise NotImplementedError
  else if String.eqb action "abort" then stake_abort
  else ret tt.

Definition is_confirm_activity (e : event) : bool :=
  match e with ConfirmActivity _ => true | _ => false end.

(** The transactions that [stake] can hand to the ledger. *)
Definition is_ledger_call (e : event) : bool :=
  is_deposit e || is_divide e || is_confirm_activity e.

Definition divisions (es : list event) : list event := List.filter is_divide es.

(** The question of [stake divide] about the stake to divide. *)
Definition asks_for_stake (e : event) : bool :=
  match e with
  | Prompt text _ => String.eqb text "Select a stake to divide"
  | _ => false
  end.

(** Period 10; the account [0xA] has three stakes. *)
Definition three_stakes_world (confirms : list bool) (ints : list Z)
    : World SpecLedger :=
  initial_world
    (ledger_at 10
       [("0xA", [mkStake "0xA" 1000 5 45 0; mkStake "0xA" 600 6 46 1;
                 mkStake "0xA" 800 7 47 2])]
       [("0xA", 5000)])
    confirms ints.

(** What [simulate start] does from the registry commit on: the commit
    itself, a stake or a process of the swarm loop, the question about
    the reactor, its run, and the work of the [finally] block. *)
Definition past_deployment (e : event) : bool :=
  match e with
  | RegistryCommit _ | InitializeStake _ _ _ | SpawnProcess _ _ _
  | ReactorRun | OsRemove _ | OsKill _ _ => true
  | Confirm text _ => String.eqb text "Start the reactor?"
  | _ => false
  end.

(** * Properties *)

(** ** The Python built-ins on examples *)

Example py_format_extra_argument :
  py_format "a {} b {}" ["x"; "y"; "z"] = Ok "a x b y".
Proof. reflexivity. Qed.

Example py_format_missing_argument :
  is_ok (py_format "a {} b {}" ["x"]) = false.
Proof. reflexivity. Qed.

Example py_split_example :
  py_split "  --checksum-address  0xA " = ["--checksum-address"; "0xA"].
Proof. reflexivity. Qed.

Example os_path_join_example :
  os_path_join "/opt/nucypher" ["cli"; "main.py"] = "/opt/nucypher/cli/main.py".
Proof. reflexivity. Qed.

Example py_index_negative : py_index [10; 20; 30] (-1) = Ok 30.
Proof. reflexivity. Qed.

(** [random.randint(15, 5)] is [randrange(15, 6)], an empty range. *)
Example randint_empty_range :
  res (randint 15 5 (initial_world tt [] [])) =
    Raise (ValueError "empty range for randrange() (15, 6, -9)").
Proof. reflexivity. Qed.

(** [str.split] on the whitespace of a template and on a no-break space. *)
Example py_split_no_break_space :
  py_split ("a" +:+ String (ascii_of_nat 160) "b" +:+ newline +:+ " c") =
    ["a"; "b"; "c"].
Proof. reflexivity. Qed.

Example stake_init_example :
  let w := initial_world (ledger_at 10 [] [("0xA", 500)]) [true; true] [300; 30] in
  let out := stake (click_config ["0xO"; "0xA"]) "init" (Some "0xA") PyNone PyNone PyNone w in
  res out = Ok tt ∧
  events out =
    [ ConnectToContracts;
      Confirm "Stage a new stake?" true;
      Echo (CurrentBalance 500);
      Prompt "Enter stake value" 300;
      Echo DurationBounds;
      Prompt "Enter stake duration in days" 30;
      Echo (StagedStake "0xA" 300 30 10 40);
      Confirm "Is this correct?" true;
      DepositTokens 300 30 "0xA";
      SpawnProcess 1 "nucypher-cli" ["run_ursula"] ] ∧
  get_all_stakes (ledger (world out)) "0xA" = [mkStake "0xA" 300 10 40 0].
Proof. vm_compute. auto. Qed.


(** ** Running computations *)

Section MonadFacts.

Context {L : Type}.

Lemma bind_unfold {A B} (m : M L A) (k : A → M L B) (w : World L) :
  bind m k w =
  match res (m w) with
  | Ok a =>
      mkOutcome (res (k a (world (m w)))) (world (k a (world (m w))))
        (events (m w) ++ events (k a (world (m w))))
  | Raise e => mkOutcome (Raise e) (world (m w)) (events (m w))
  end.
Proof.
  unfold bind. destruct (m w) as [[a|e] w1 es1]; simpl; [|reflexivity].
  destruct (k a w1); reflexivity.
Qed.

(** The events of [m] open the events of [m ;; k]. *)
Lemma bind_events_prefix {A B} (m : M L A) (k : A → M L B) (w : World L) :
  ∃ rest, events (bind m k w) = events (m w) ++ rest.
Proof.
  rewrite bind_unfold. destruct (res (m w)); simpl; eauto.
  exists []. now rewrite app_nil_r.
Qed.

(** Once [m] raises, [m ;; k] raises the same exception and does nothing
    more. *)
Lemma bind_raise {A B} (m : M L A) (k : A → M L B) (w : World L) (e : exn) :
  res (m w) = Raise e →
  bind m k w = mkOutcome (Raise e) (world (m w)) (events (m w)).
Proof. intros Hm. rewrite bind_unfold, Hm. reflexivity. Qed.

Lemma for_each_emit {A} (l : list A) (f : A → event) (w : World L) :
  for_each l (fun x => emit (f x)) w = mkOutcome (Ok tt) w (map f l).
Proof.
  induction l as [|x l IH]; simpl; [reflexivity|].
  rewrite bind_unfold. simpl. rewrite IH. reflexivity.
Qed.

Lemma emits_only_ret {A} P (a : A) : emits_only (L:=L) P (ret a).
Proof. intros w. reflexivity. Qed.

Lemma emits_only_raise {A} P (e : exn) : emits_only (L:=L) (A:=A) P (raise e).
Proof. intros w. reflexivity. Qed.

Lemma emits_only_lift {A} P (r : result A) : emits_only (L:=L) P (lift r).
Proof. intros w. reflexivity. Qed.

Lemma emits_only_emit P (e : event) : P e = true → emits_only (L:=L) P (emit e).
Proof. intros He w. simpl. now rewrite He. Qed.

Lemma emits_only_bind {A B} P (m : M L A) (k : A → M L B) :
  emits_only P m → (∀ a, emits_only P (k a)) → emits_only P (bind m k).
Proof.
  intros Hm Hk w. rewrite bind_unfold.
  destruct (res (m w)); simpl; [|apply Hm].
  rewrite forallb_app, Hm, Hk. reflexivity.
Qed.

Lemma emits_only_try_finally P (body handler : M L unit) :
  emits_only P body → emits_only P handler →
  emits_only P (try_finally body handler).
Proof.
  intros Hb Hh w. unfold try_finally.
  specialize (Hb w). destruct (body w) as [r w1 es1]. simpl in Hb.
  specialize (Hh w1). destruct (handler w1) as [[u|e] w2 es2]; simpl in *;
    rewrite forallb_app, Hb, Hh; reflexivity.
Qed.

Lemma emits_only_for_each {A} P (l : list A) (body : A → M L unit) :
  (∀ x, emits_only P (body x)) → emits_only P (for_each l body).
Proof.
  intros Hb. induction l as [|x l IH]; simpl.
  - apply emits_only_ret.
  - apply emits_only_bind; [apply Hb | intros _; apply IH].
Qed.

Lemma emits_only_confirm P (text : string) (abort : bool) :
  (∀ b, P (Confirm text b) = true) → emits_only (L:=L) P (confirm text abort).
Proof.
  intros HP w. unfold confirm. destruct (confirm_answers w); simpl; [reflexivity|].
  now rewrite HP.
Qed.

Lemma emits_only_prompt_int P (text : string) :
  (∀ z, P (Prompt text z) = true) → emits_only (L:=L) P (prompt_int text).
Proof.
  intros HP w. unfold prompt_int. destruct (int_answers w); simpl; [reflexivity|].
  now rewrite HP.
Qed.

Lemma emits_only_randint P (a b : Z) : emits_only (L:=L) P (randint a b).
Proof. intros w. unfold randint. destruct (b <? a); reflexivity. Qed.

Lemma emits_only_urandom P (n : Z) : emits_only (L:=L) P (urandom n).
Proof. intros w. reflexivity. Qed.

Lemma emits_only_spawnProcess P (executable : string) (args : list string) :
  (∀ p, P (SpawnProcess p executable args) = true) →
  emits_only (L:=L) P (spawnProcess executable args).
Proof. intros HP w. simpl. now rewrite HP. Qed.

Lemma emits_only_read_ledger {A} P (f : L → A) : emits_only P (read_ledger f).
Proof. intros w. reflexivity. Qed.

Lemma emits_only_ledger_call P (e : event) (f : L → result L) :
  P e = true → emits_only P (ledger_call e f).
Proof.
  intros HP w. unfold ledger_call. destruct (f (ledger w)); simpl; now rewrite HP.
Qed.

End MonadFacts.

(** ** The [stake] command: address selection *)

Section StakeFacts.

Context {L : Type} `{LedgerGateway L}.

Lemma select_address_given (config : NucypherClickConfig) (a : Address)
    (index : pyval) (w : World L) :
  a ≠ "" →
  select_address config (Some a) index w = mkOutcome (Ok (a, index)) w [].
Proof.
  intros Ha. unfold select_address.
  destruct (String.eqb a "") eqn:E; [|reflexivity].
  apply String.eqb_eq in E. contradiction.
Qed.

(** Choosing an address is a dialogue: nothing is committed and no
    confirmation is consumed. *)
Lemma choose_address_quiet (config : NucypherClickConfig) (index : pyval)
    (w : World L) :
  forallb is_dialogue (events (choose_address config index w)) = true ∧
  ledger (world (choose_address config index w)) = ledger w ∧
  confirm_answers (world (choose_address config index w)) = confirm_answers w ∧
  next_pid (world (choose_address config index w)) = next_pid w.
Proof.
  unfold choose_address, echo.
  rewrite bind_unfold, (for_each_emit _ (fun ia => Echo (AccountRow ia.1 ia.2))).
  cbn [res world events].
  assert (Hrows : forallb is_dialogue
            (map (fun ia : Z * Address => Echo (AccountRow ia.1 ia.2))
               (enumerate 0 (accounts config))) = true).
  { generalize 0. induction (accounts config) as [|x l IH]; intros z; simpl; auto. }
  unfold bind, emit, prompt_int, lift, ret.
  destruct (int_answers w) as [|z zs]; cbn.
  - rewrite forallb_app, Hrows. auto.
  - destruct (py_index (accounts config) z); cbn;
      rewrite forallb_app, Hrows; auto.
Qed.

Lemma select_address_quiet (config : NucypherClickConfig)
    (address : option string) (index : pyval) (w : World L) :
  forallb is_dialogue (events (select_address config address index w)) = true ∧
  ledger (world (select_address config address index w)) = ledger w ∧
  confirm_answers (world (select_address config address index w))
    = confirm_answers w ∧
  next_pid (world (select_address config address index w)) = next_pid w.
Proof.
  unfold select_address. destruct address as [a|].
  - destruct (negb (String.eqb a "")); [cbn; auto | apply choose_address_quiet].
  - apply choose_address_quiet.
Qed.

End StakeFacts.

(** ** The [stake] command: [init] *)

Lemma filter_none (P Q : event → bool) (es : list event) :
  forallb Q es = true →
  (∀ e, Q e = true → P e = false) →
  List.filter P es = [].
Proof.
  intros Hall HPQ. induction es as [|e es IH]; simpl in *; [reflexivity|].
  apply andb_prop in Hall as [He Hes].
  rewrite (HPQ e He). auto.
Qed.

Lemma dialogue_not_in (e : event) (es : list event) :
  forallb is_dialogue es = true → is_dialogue e = false → ¬ In e es.
Proof.
  intros Hall He Hin.
  rewrite forallb_forall in Hall. specialize (Hall e Hin). congruence.
Qed.

Section StakeInit.

Context {L : Type} `{LedgerGateway L}.

(** Splits a goal about [stake_init address w] into the paths of the
    branch: the operator's answers, the stakes found, the ledger's reply. *)
Ltac init_paths address w :=
  unfold stake_init, bind, confirm, read_ledger, echo, emit, prompt_int,
    raise, ret, ledger_call, spawnProcess;
  destruct (confirm_answers w) as [|[|] cs] eqn:Hconfirm; cbn;
  [ | destruct (get_all_stakes (ledger w) address) as [|s0 ss] eqn:Hstakes; cbn;
      [ destruct (int_answers w) as [|v [|d ds]] eqn:Hints; cbn;
        [ | | destruct cs as [|[|] cs']; cbn;
              [ | destruct (deposit_tokens v d address (ledger w)) eqn:Hdeposit; cbn | ] ]
      | ]
    | ].

Ltac close_leaf :=
  intros;
  repeat match goal with
         | Hin : In _ _ |- _ => simpl in Hin
         | Hor : _ ∨ _ |- _ => destruct Hor
         | Hf : False |- _ => destruct Hf
         | Heq : _ = _ |- _ => discriminate Heq
         end;
  repeat split; try reflexivity; try congruence; eauto.

Lemma stake_unfold_init (config : NucypherClickConfig)
    (address : option string) (index value duration : pyval) (w : World L) :
  stake config "init" address index value duration w =
  match res (select_address config address index w) with
  | Ok ai =>
      mkOutcome
        (res (stake_init ai.1 (world (select_address config address index w))))
        (world (stake_init ai.1 (world (select_address config address index w))))
        (ConnectToContracts ::
           events (select_address config address index w) ++
           events (stake_init ai.1 (world (select_address config address index w))))
  | Raise e =>
      mkOutcome (Raise e) (world (select_address config address index w))
        (ConnectToContracts :: events (select_address config address index w))
  end.
Proof.
  unfold stake. rewrite bind_unfold. cbn [emit res world events].
  rewrite bind_unfold.
  destruct (res (select_address config address index w)); reflexivity.
Qed.

Lemma stake_init_rejected (address : Address) (w : World L) :
  In (Confirm "Is this correct?" false) (events (stake_init address w)) →
  res (stake_init address w) = Raise NotImplementedError ∧
  deposits (events (stake_init address w)) = [] ∧
  ledger (world (stake_init address w)) = ledger w ∧
  ∃ pre v d p,
    events (stake_init address w) =
      pre ++ [Echo (StagedStake address v d p (p + d));
              Confirm "Is this correct?" false].
Proof.
  init_paths address w; try solve [close_leaf].
  intros _. repeat split.
  eexists [_; _; _; _; _], _, _, _. reflexivity.
Qed.

(** C9 — in [stake init], when the operator answers no to the
    confirmation that follows the preview of the staged stake, the command
    raises [NotImplementedError], no deposit is submitted and the ledger
    is left as it was: the staged values are never committed. *)
Theorem staged_stake_rejected_not_committed (config : NucypherClickConfig)
    (address : option string) (index value duration : pyval) (w : World L) :
  In (Confirm "Is this correct?" false)
     (events (stake config "init" address index value duration w)) →
  res (stake config "init" address index value duration w)
    = Raise NotImplementedError ∧
  deposits (events (stake config "init" address index value duration w)) = [] ∧
  ledger (world (stake config "init" address index value duration w)) = ledger w ∧
  ∃ pre a v d p,
    events (stake config "init" address index value duration w) =
      pre ++ [Echo (StagedStake a v d p (p + d));
              Confirm "Is this correct?" false].
Proof.
  rewrite stake_unfold_init.
  destruct (select_address_quiet config address index w) as (Hq & Hl & _ & _).
  destruct (res (select_address config address index w)) as [ai|e]; cbn.
  - intros [Hc|Hin]; [discriminate|].
    apply in_app_or in Hin as [Hin|Hin];
      [exfalso; revert Hin; now apply dialogue_not_in|].
    destruct (stake_init_rejected _ _ Hin) as (Hr & Hd & Hl' & pre & v & d & p & He).
    repeat split; [exact Hr | | congruence | ].
    + unfold deposits in *. rewrite List.filter_app, Hd, app_nil_r.
      now apply filter_none with (Q := is_dialogue); [|intros []].
    + exists (ConnectToContracts ::
                events (select_address config address index w) ++ pre),
        ai.1, v, d, p.
      rewrite He. cbn. now rewrite <- app_assoc.
  - intros [Hc|Hin]; [discriminate|].
    exfalso; revert Hin; now apply dialogue_not_in.
Qed.

(** With an [--address], the command is the [init] branch on that address. *)
Lemma stake_init_given (config : NucypherClickConfig) (a : Address)
    (index value duration : pyval) (w : World L) :
  a ≠ "" →
  stake config "init" (Some a) index value duration w =
  mkOutcome (res (stake_init a w)) (world (stake_init a w))
    (ConnectToContracts :: events (stake_init a w)).
Proof.
  intros Ha. rewrite stake_unfold_init, select_address_given by exact Ha.
  reflexivity.
Qed.

(** The whole run of the branch when the address has no stake and the
    operator accepts both confirmations. *)
Lemma stake_init_accepted (a : Address) (w : World L) (v d : Z)
    (cs : list bool) (ints : list Z) :
  get_all_stakes (ledger w) a = [] →
  confirm_answers w = true :: true :: cs →
  int_answers w = v :: d :: ints →
  stake_init a w =
  let dialogue :=
    [ Confirm "Stage a new stake?" true;
      Echo (CurrentBalance (get_balance (ledger w) a));
      Prompt "Enter stake value" v;
      Echo DurationBounds;
      Prompt "Enter stake duration in days" d;
      Echo (StagedStake a v d (get_current_period (ledger w))
              (get_current_period (ledger w) + d));
      Confirm "Is this correct?" true ] in
  match deposit_tokens v d a (ledger w) with
  | Ok l' =>
      mkOutcome (Ok tt)
        (mkWorld l' cs ints (random_draws w) (urandom_results w) (next_pid w + 1))
        (dialogue ++ [DepositTokens v d a;
                      SpawnProcess (next_pid w) "nucypher-cli" ["run_ursula"]])
  | Raise e =>
      mkOutcome (Raise e)
        (mkWorld (ledger w) cs ints (random_draws w) (urandom_results w) (next_pid w))
        (dialogue ++ [DepositTokens v d a])
  end.
Proof.
  intros Hs Hc Hi.
  unfold stake_init, bind, confirm, read_ledger, echo, emit, prompt_int,
    raise, ret, ledger_call, spawnProcess.
  rewrite Hc. cbn. rewrite Hs. cbn. rewrite Hi. cbn.
  destruct (deposit_tokens v d a (ledger w)); reflexivity.
Qed.

Lemma stake_init_success (address : Address) (w : World L) :
  res (stake_init address w) = Ok tt →
  ∃ pre v d,
    events (stake_init address w) =
      pre ++ [DepositTokens v d address;
              SpawnProcess (next_pid w) "nucypher-cli" ["run_ursula"]] ∧
    deposits pre = [] ∧ spawns pre = [] ∧
    next_pid (world (stake_init address w)) = next_pid w + 1.
Proof.
  init_paths address w; try solve [close_leaf].
  intros _. eexists [_; _; _; _; _; _; _], _, _. repeat split.
Qed.

(** C10 — every [stake init] that succeeds has, as its last two actions,
    the deposit transaction and then the start of one [run_ursula] worker
    process under [nucypher-cli]: besides the ledger it changes the
    operating system, which has one process more. *)
Theorem successful_init_spawns_worker (config : NucypherClickConfig)
    (address : option string) (index value duration : pyval) (w : World L) :
  res (stake config "init" address index value duration w) = Ok tt →
  ∃ pre a v d,
    events (stake config "init" address index value duration w) =
      pre ++ [DepositTokens v d a;
              SpawnProcess (next_pid w) "nucypher-cli" ["run_ursula"]] ∧
    deposits pre = [] ∧ spawns pre = [] ∧
    next_pid (world (stake config "init" address index value duration w))
      = next_pid w + 1.
Proof.
  rewrite stake_unfold_init.
  destruct (select_address_quiet config address index w) as (Hq & _ & _ & Hp).
  destruct (res (select_address config address index w)) as [ai|e]; cbn;
    [|discriminate].
  intros Hok.
  destruct (stake_init_success _ _ Hok) as (pre & v & d & He & Hd & Hs & Hn).
  exists (ConnectToContracts ::
            events (select_address config address index w) ++ pre),
    ai.1, v, d.
  rewrite He, Hn, Hp. repeat split.
  - cbn. now rewrite <- app_assoc.
  - unfold deposits in *. cbn. rewrite List.filter_app, Hd, app_nil_r.
    now apply filter_none with (Q := is_dialogue); [|intros []].
  - unfold spawns in *. cbn. rewrite List.filter_app, Hs, app_nil_r.
    now apply filter_none with (Q := is_dialogue); [|intros []].
Qed.


(** C5, as amended — [stake init] checks no range itself.  Whatever value
    and duration the operator enters, in range or not, once the address
    has no stake and both confirmations are accepted the command submits
    exactly one deposit, for the entered value and duration, and ends the
    way the ledger's [deposit_tokens] ends: any range error is the
    ledger's, raised after the transaction was handed over. *)
Theorem init_leaves_range_check_to_ledger (config : NucypherClickConfig)
    (a : Address) (index value duration : pyval) (w : World L) (v d : Z)
    (cs : list bool) (ints : list Z) :
  a ≠ "" →
  get_all_stakes (ledger w) a = [] →
  confirm_answers w = true :: true :: cs →
  int_answers w = v :: d :: ints →
  deposits (events (stake config "init" (Some a) index value duration w))
    = [DepositTokens v d a] ∧
  res (stake config "init" (Some a) index value duration w)
    = match deposit_tokens v d a (ledger w) with
      | Ok _ => Ok tt
      | Raise e => Raise e
      end.
Proof.
  intros Ha Hs Hc Hi. rewrite stake_init_given by exact Ha.
  rewrite (stake_init_accepted a w v d cs ints Hs Hc Hi). cbn zeta.
  destruct (deposit_tokens v d a (ledger w)); split; reflexivity.
Qed.

End StakeInit.

(** C6, as amended — on the ledger of the specification, for an address
    without a stake, a value in [[MIN_ALLOWED_LOCKED, balance]] and a
    duration in [[MIN_LOCKED_PERIODS, MAX_MINTING_PERIODS]], a [stake init]
    in which the operator accepts both confirmations succeeds: the
    preview shows the current period as start and start plus duration as
    end, exactly one deposit is submitted, for that value and duration,
    and afterwards the address has exactly one stake, whose end is
    [duration] periods after its start. *)
Theorem init_commits_one_stake (config : NucypherClickConfig)
    (a : Address) (index value duration : pyval) (w : World SpecLedger)
    (v d : Z) (cs : list bool) (ints : list Z) :
  a ≠ "" →
  get_all_stakes (ledger w) a = [] →
  min_allowed_locked (ledger w) ≤ v ≤ get_balance (ledger w) a →
  min_locked_periods (ledger w) ≤ d ≤ max_minting_periods (ledger w) →
  confirm_answers w = true :: true :: cs →
  int_answers w = v :: d :: ints →
  let o := stake config "init" (Some a) index value duration w in
  res o = Ok tt ∧
  In (Echo (StagedStake a v d (get_current_period (ledger w))
              (get_current_period (ledger w) + d))) (events o) ∧
  deposits (events o) = [DepositTokens v d a] ∧
  ∃ s, get_all_stakes (ledger (world o)) a = [s] ∧
       stake_value s = v ∧
       stake_start_period s = get_current_period (ledger w) ∧
       stake_end_period s - stake_start_period s = d.
Proof.
  intros Ha Hs [Hv1 Hv2] [Hd1 Hd2] Hc Hi o. subst o.
  rewrite stake_init_given by exact Ha.
  rewrite (stake_init_accepted a w v d cs ints Hs Hc Hi).
  cbn in *. unfold spec_deposit_tokens.
  apply Z.leb_le in Hv1, Hv2, Hd1, Hd2. rewrite Hv1, Hv2, Hd1, Hd2.
  cbn. rewrite Hs. cbn.
  split; [reflexivity|].
  split; [do 6 right; left; reflexivity|].
  split; [reflexivity|].
  eexists. unfold spec_get_all_stakes. cbn. rewrite lookup_insert_eq. cbn.
  split; [reflexivity|]. cbn. split; [reflexivity|]. split; [reflexivity|]. lia.
Qed.

(** C9 at work: the address [0xA] has no stake, the operator stages 300
    tokens for 30 periods and then answers no. *)
Lemma staged_stake_rejected_witness :
  let o := stake sample_config "init" (Some "0xA") PyNone PyNone PyNone
             (fresh_world [true; false] [300; 30]) in
  In (Confirm "Is this correct?" false) (events o) ∧
  (res o = Raise NotImplementedError ∧
   deposits (events o) = [] ∧
   ledger (world o) = ledger (fresh_world [true; false] [300; 30]) ∧
   ∃ pre a v d p,
     events o = pre ++ [Echo (StagedStake a v d p (p + d));
                        Confirm "Is this correct?" false]).
Proof.
  intros o.
  assert (Hin : In (Confirm "Is this correct?" false) (events o)).
  { vm_compute. do 7 right. left. reflexivity. }
  split; [exact Hin|].
  exact (staged_stake_rejected_not_committed sample_config (Some "0xA")
           PyNone PyNone PyNone (fresh_world [true; false] [300; 30]) Hin).
Defined.

(** C10 at work: the same staging, accepted. *)
Lemma successful_init_spawns_worker_witness :
  let o := stake sample_config "init" (Some "0xA") PyNone PyNone PyNone
             (fresh_world [true; true] [300; 30]) in
  res o = Ok tt ∧
  ∃ pre a v d,
    events o = pre ++ [DepositTokens v d a;
                       SpawnProcess 1 "nucypher-cli" ["run_ursula"]] ∧
    deposits pre = [] ∧ spawns pre = [] ∧
    next_pid (world o) = 1 + 1.
Proof.
  intros o.
  assert (Hok : res o = Ok tt) by (vm_compute; reflexivity).
  split; [exact Hok|].
  exact (successful_init_spawns_worker sample_config (Some "0xA")
           PyNone PyNone PyNone (fresh_world [true; true] [300; 30]) Hok).
Defined.



(** C5 as the claim states it fails: [0xA] holds 500 tokens, the operator
    enters a value of 501 and a duration of 0 periods, both out of range,
    and accepts; the deposit for 501 tokens and 0 periods is submitted,
    and the error that ends the command is the refusal of the ledger. *)
Lemma init_submits_out_of_range_deposit :
  let w := fresh_world [true; true] [501; 0] in
  let o := stake sample_config "init" (Some "0xA") PyNone PyNone PyNone w in
  ¬ (0 < 501 ≤ get_balance (ledger w) "0xA") ∧
  ¬ (min_locked_periods (ledger w) ≤ 0 ≤ max_minting_periods (ledger w)) ∧
  In (DepositTokens 501 0 "0xA") (events o) ∧
  res o = Raise (External "InvalidStakeRangeError").
Proof.
  cbv zeta. split; [|split; [|split]].
  - vm_compute. intros [_ Hle]. apply Hle. reflexivity.
  - vm_compute. intros [Hle _]. apply Hle. reflexivity.
  - vm_compute. repeat first [left; reflexivity | right].
  - vm_compute. reflexivity.
Qed.

(** C5, as amended, at work on the same out-of-range entry. *)
Lemma init_leaves_range_check_to_ledger_witness :
  let w := fresh_world [true; true] [501; 0] in
  let o := stake sample_config "init" (Some "0xA") PyNone PyNone PyNone w in
  ("0xA" ≠ "" ∧ get_all_stakes (ledger w) "0xA" = [] ∧
   confirm_answers w = [true; true] ∧ int_answers w = [501; 0]) ∧
  deposits (events o) = [DepositTokens 501 0 "0xA"] ∧
  res o = match deposit_tokens 501 0 "0xA" (ledger w) with
          | Ok _ => Ok tt
          | Raise e => Raise e
          end.
Proof.
  intros w o.
  assert (Ha : "0xA" ≠ "") by discriminate.
  assert (Hs : get_all_stakes (ledger w) "0xA" = []) by (vm_compute; reflexivity).
  assert (Hc : confirm_answers w = [true; true]) by reflexivity.
  assert (Hi : int_answers w = [501; 0]) by reflexivity.
  split; [repeat split; assumption|].
  exact (init_leaves_range_check_to_ledger sample_config "0xA" PyNone PyNone
           PyNone w 501 0 [] [] Ha Hs Hc Hi).
Defined.

(** C6 as the claim states it fails: address without a stake, value and
    duration in range, but the operator answers no to the confirmation
    of the staged stake; nothing is deposited and the address still has
    no stake. *)
Lemma init_in_range_declined :
  let w := fresh_world [true; false] [300; 30] in
  let o := stake sample_config "init" (Some "0xA") PyNone PyNone PyNone w in
  get_all_stakes (ledger w) "0xA" = [] ∧
  min_allowed_locked (ledger w) ≤ 300 ≤ get_balance (ledger w) "0xA" ∧
  min_locked_periods (ledger w) ≤ 30 ≤ max_minting_periods (ledger w) ∧
  res o = Raise NotImplementedError ∧
  deposits (events o) = [] ∧
  get_all_stakes (ledger (world o)) "0xA" = [].
Proof.
  cbv zeta. split; [|split; [|split; [|split; [|split]]]].
  - vm_compute. reflexivity.
  - vm_compute. split; discriminate.
  - vm_compute. split; discriminate.
  - vm_compute. reflexivity.
  - vm_compute. reflexivity.
  - vm_compute. reflexivity.
Qed.

(** C6, as amended, at work: the same entry, accepted. *)
Lemma init_commits_one_stake_witness :
  let w := fresh_world [true; true] [300; 30] in
  let o := stake sample_config "init" (Some "0xA") PyNone PyNone PyNone w in
  ("0xA" ≠ "" ∧ get_all_stakes (ledger w) "0xA" = [] ∧
   min_allowed_locked (ledger w) ≤ 300 ≤ get_balance (ledger w) "0xA" ∧
   min_locked_periods (ledger w) ≤ 30 ≤ max_minting_periods (ledger w) ∧
   confirm_answers w = [true; true] ∧ int_answers w = [300; 30]) ∧
  res o = Ok tt ∧
  In (Echo (StagedStake "0xA" 300 30 (get_current_period (ledger w))
              (get_current_period (ledger w) + 30))) (events o) ∧
  deposits (events o) = [DepositTokens 300 30 "0xA"] ∧
  ∃ s, get_all_stakes (ledger (world o)) "0xA" = [s] ∧
       stake_value s = 300 ∧
       stake_start_period s = get_current_period (ledger w) ∧
       stake_end_period s - stake_start_period s = 30.
Proof.
  intros w o.
  assert (Ha : "0xA" ≠ "") by discriminate.
  assert (Hs : get_all_stakes (ledger w) "0xA" = []) by (vm_compute; reflexivity).
  assert (Hv : min_allowed_locked (ledger w) ≤ 300 ≤ get_balance (ledger w) "0xA")
    by (vm_compute; split; discriminate).
  assert (Hd : min_locked_periods (ledger w) ≤ 30 ≤ max_minting_periods (ledger w))
    by (vm_compute; split; discriminate).
  assert (Hc : confirm_answers w = [true; true]) by reflexivity.
  assert (Hi : int_answers w = [300; 30]) by reflexivity.
  split; [repeat split; first [assumption | apply Hv | apply Hd]|].
  exact (init_commits_one_stake sample_config "0xA" PyNone
           PyNone PyNone w 300 30 [] [] Ha Hs Hv Hd Hc Hi).
Defined.

(** ** The [stake] command: [divide] *)

Lemma emits_only_weaken {L A} (P Q : event → bool) (m : M L A) :
  (∀ e, P e = true → Q e = true) → emits_only P m → emits_only Q m.
Proof.
  intros HPQ Hm w. specialize (Hm w).
  rewrite forallb_forall in *. auto.
Qed.

(** Goals [emits_only P m] for a command [m] built from the primitives:
    the combinators are taken apart and [P] is evaluated at every event
    the command can perform. *)
Ltac emits_auto :=
  repeat first
    [ apply emits_only_ret
    | apply emits_only_raise
    | apply emits_only_lift
    | apply emits_only_read_ledger
    | apply emits_only_randint
    | apply emits_only_urandom
    | apply emits_only_emit; reflexivity
    | apply emits_only_confirm; intros; reflexivity
    | apply emits_only_prompt_int; intros; reflexivity
    | apply emits_only_spawnProcess; intros; reflexivity
    | apply emits_only_ledger_call; reflexivity
    | apply emits_only_for_each; intros
    | apply emits_only_try_finally
    | apply emits_only_bind; [|intros]
    | progress cbv zeta
    | match goal with
      | |- emits_only _ (if ?b then _ else _) => destruct b
      | |- emits_only _ (match ?x with _ => _ end) => destruct x
      end ].

Section StakeDivide.

Context {L : Type} `{LedgerGateway L}.

Lemma select_address_dialogue (config : NucypherClickConfig)
    (address : option string) (index : pyval) :
  emits_only (L:=L) is_dialogue (select_address config address index).
Proof. intros w. apply select_address_quiet. Qed.

(** Whatever the operator enters as the new target value, a division that
    [stake_divide] submits carries the [--value] option of the command. *)
Lemma stake_divide_carries_option (address : Address) (index value : pyval) :
  emits_only (L:=L) (carries_value value) (stake_divide address index value).
Proof.
  unfold stake_divide, subscript. emits_auto.
  apply emits_only_ledger_call. cbn. now apply bool_decide_eq_true_2.
Qed.

Lemma stake_carries_option (config : NucypherClickConfig)
    (address : option string) (index value duration : pyval) :
  emits_only (L:=L) (carries_value value)
    (stake config "divide" address index value duration).
Proof.
  unfold stake. apply emits_only_bind; [emits_auto|intros _].
  apply emits_only_bind.
  - apply emits_only_weaken with (P := is_dialogue);
      [now intros [] | apply select_address_dialogue].
  - intros ai. cbn. apply stake_divide_carries_option.
Qed.

End StakeDivide.

(** C2 — the claim holds of the specification and not of the code.  The
    address [0xA] has one stake, of 1000 tokens; the command is run
    without a [--value] option; the operator selects stake 0, enters 400 as
    the new target value and 5 periods of extension, and confirms.  The
    division that is submitted carries [None] as its value, not the 400
    that was entered (and the preview announces 405, target plus
    extension, as the new end period). *)
Theorem divide_submits_option_not_target :
  let o := stake sample_config "divide" (Some "0xA") PyNone PyNone PyNone
             (staked_world [true] [0; 400; 5]) in
  events o =
    [ ConnectToContracts;
      Echo (StakeSelectionRow 0 sample_stake);
      Prompt "Select a stake to divide" 0;
      Prompt "Enter new target value" 400;
      Prompt "Enter number of periods to extend" 5;
      Echo (DividePreview sample_stake 400 405);
      Confirm "Is this correct?" true;
      DivideStake "0xA" (PyInt 0) PyNone 5 ] ∧
  List.filter is_divide (events o) ≠ [DivideStake "0xA" (PyInt 0) (PyInt 400) 5].
Proof. vm_compute. split; [reflexivity | discriminate]. Qed.

(** With the option given, the division carries the option, a string,
    whatever target the operator enters. *)
Example divide_with_value_option :
  let o := stake sample_config "divide" (Some "0xA") PyNone (PyStr "250") PyNone
             (staked_world [true] [0; 400; 5]) in
  List.filter is_divide (events o) = [DivideStake "0xA" (PyInt 0) (PyStr "250") 5].
Proof. vm_compute. reflexivity. Qed.

(** ** The [simulate start] command *)

Section SimulateFacts.

Context {L : Type}.

(** In federated-only mode [sim_addresses] is [NotImplemented] and the
    swarm loop cannot start. *)
Lemma simulate_start_federated (g : Globals) (t : Tester)
    (config : NucypherClickConfig) (nodes : Z) (geth : bool) (w : World L) :
  simulate_start g t config nodes true geth w =
    mkOutcome (Raise (TypeError "'NotImplementedType' object is not iterable"))
      w [Echo ReadyToRunSwarm].
Proof. reflexivity. Qed.

(** C3 — the claim holds of the specification and not of the code.  In
    federated-only mode, whatever the number of nodes (5 in the claim),
    the command announces the swarm, raises [TypeError] at the head of the
    swarm loop and spawns nothing: no handle, no port, no database name. *)
Theorem federated_start_spawns_nothing (g : Globals) (t : Tester)
    (config : NucypherClickConfig) (geth : bool) (w : World L) :
  res (simulate_start g t config 5 true geth w) =
    Raise (TypeError "'NotImplementedType' object is not iterable") ∧
  events (simulate_start g t config 5 true geth w) = [Echo ReadyToRunSwarm] ∧
  spawns (events (simulate_start g t config 5 true geth w)) = [] ∧
  next_pid (world (simulate_start g t config 5 true geth w)) = next_pid w.
Proof. rewrite simulate_start_federated. repeat split. Qed.

(** The template has three fields and is formatted with four arguments:
    the last one, the database name, is the one [str.format] leaves out. *)
Lemma base_proc_params_ignores_db_name (g : Globals) (rest_port : Z)
    (db1 db2 : string) :
  base_proc_params g rest_port db1 = base_proc_params g rest_port db2.
Proof. reflexivity. Qed.

Lemma append_empty_r (s : string) : s +:+ "" = s.
Proof.
  induction s as [|c s IH]; [reflexivity|].
  change (String c (s +:+ "") = String c s). now rewrite IH.
Qed.

(** The mode-dependent tail of the argument vector: the federated flag in
    federated-only mode and never otherwise, the checksum address
    otherwise. *)
Lemma proc_params_mode (g : Globals) (federated_only : bool) (rest_port : Z)
    (db_name : string) (sim_address : Address) (params : list string) :
  base_proc_params g rest_port db_name = Ok params →
  proc_params g federated_only rest_port db_name sim_address =
    Ok (params ++
        if federated_only then ["--federated-only"]
        else py_split ("--checksum-address " +:+ sim_address)).
Proof.
  intros Hb. unfold proc_params, checksum_params. rewrite Hb.
  destruct federated_only; [reflexivity|].
  cbn [py_format]. now rewrite append_empty_r.
Qed.

Lemma emits_only_spawn_loop (P : event → bool) (g : Globals) (t : Tester)
    (federated_only : bool) (counter : Z) (items : list (Z * Address)) :
  (∀ c port a, emits_only (L:=L) P (spawn_ursula g t federated_only c port a)) →
  emits_only (L:=L) P (spawn_loop g t federated_only counter items).
Proof.
  intros Hbody. revert counter.
  induction items as [|[port a] items IH]; intros counter; simpl.
  - apply emits_only_ret.
  - apply emits_only_bind; [apply Hbody | intros _; apply IH].
Qed.

(** The opening block when the chain has accounts and the operator
    accepts the deployment. *)
Lemma bootstrap_accepted (g : Globals) (t : Tester) (nodes : Z) (geth : bool)
    (w : World L) (origin : Address) (everyone_else : list Address)
    (cs : list bool) :
  w3_accounts t nodes = origin :: everyone_else →
  confirm_answers w = true :: cs →
  events (bootstrap_blockchain g t nodes geth w) =
    deployment_events g nodes geth origin everyone_else
      (hd "" (urandom_results w)) (hd "" (tl (urandom_results w))) ++
    match DEFAULT_SIMULATION_REGISTRY_FILEPATH g with
    | Some p => [RegistryCommit p]
    | None => []
    end ∧
  res (bootstrap_blockchain g t nodes geth w) =
    match DEFAULT_SIMULATION_REGISTRY_FILEPATH g with
    | Some p => Ok everyone_else
    | None => Raise (NameError "DEFAULT_SIMULATION_REGISTRY_FILEPATH")
    end.
Proof.
  intros Ha Hc.
  unfold bootstrap_blockchain, deployment_events, bind, echo, emit, confirm,
    urandom, read_global, raise, ret.
  rewrite Ha. cbn. rewrite Hc. cbn.
  destruct (DEFAULT_SIMULATION_REGISTRY_FILEPATH g); cbn; split; reflexivity.
Qed.

(** In the namespace of the module as it is written the opening block
    never completes. *)
Lemma bootstrap_as_written (g : Globals) (t : Tester) (nodes : Z)
    (geth : bool) (w : World L) :
  as_written g →
  is_ok (res (bootstrap_blockchain g t nodes geth w)) = false ∧
  List.filter is_reactor_run (events (bootstrap_blockchain g t nodes geth w)) = [].
Proof.
  unfold as_written. intros Hg.
  unfold bootstrap_blockchain, bind, echo, emit, confirm, urandom,
    read_global, raise, ret.
  destruct (w3_accounts t nodes) as [|origin everyone_else]; cbn;
    [split; reflexivity|].
  destruct (confirm_answers w) as [|[|] cs]; cbn; [split; reflexivity | |
    split; reflexivity].
  rewrite Hg. cbn. split; reflexivity.
Qed.

(** As [main.py] is written no run of [simulate start] reaches
    [reactor.run()]: in federated-only mode the swarm loop raises, and
    otherwise the registry commit does. *)
Lemma reactor_unreachable_as_written (g : Globals) (t : Tester)
    (config : NucypherClickConfig) (nodes : Z) (federated_only geth : bool)
    (w : World L) :
  as_written g →
  is_ok (res (simulate_start g t config nodes federated_only geth w)) = false ∧
  List.filter is_reactor_run
    (events (simulate_start g t config nodes federated_only geth w)) = [].
Proof.
  intros Hg. destruct federated_only.
  - rewrite simulate_start_federated.
    split; reflexivity.
  - destruct (bootstrap_as_written g t nodes geth w Hg) as [Hr He].
    unfold simulate_start. cbn [negb].
    destruct (res (bootstrap_blockchain g t nodes geth w)) as [l|e] eqn:Hres;
      [discriminate|].
    rewrite (bind_raise _ _ w e); rewrite bind_unfold, Hres; cbn; auto.
Qed.

End SimulateFacts.


(** C8 as the claim states it fails: in a non-federated start the
    operator declines the deployment; the command ends with click's
    [Abort] and nothing is armed, deployed, airdropped or committed. *)
Lemma declined_start_deploys_nothing :
  let o := sample_simulation (with_registry_path "sim-registry.json" sample_globals)
             [false] None in
  res o = Raise Abort ∧
  events o =
    [ NewTesterBlockchain "pyevm://tester" 3;
      SetDeployerAddress "0xO";
      EtherAirdrop 1000000;
      Confirm "Deploy all nucypher contracts to pyevm://tester?" false ] ∧
  List.filter is_deployment (events o) = [].
Proof. vm_compute. repeat split. Qed.

(** C8, as amended — in every non-federated start on a chain with at
    least one account in which the operator accepts the deployment, the
    command opens with: the Token deployer armed then deployed, the
    MinerEscrow deployer, built from the agent of the Token deployer,
    armed then deployed, the PolicyManager deployer, built from the agent
    of the MinerEscrow deployer, armed then deployed, and then the airdrop
    to every account but the first.  Nothing is committed to the registry
    before that; where the registry path is bound, the commit is the next
    event. *)
Theorem deployment_order {L : Type} (g : Globals) (t : Tester)
    (config : NucypherClickConfig) (nodes : Z) (geth : bool) (w : World L)
    (origin : Address) (everyone_else : list Address) (cs : list bool) :
  w3_accounts t nodes = origin :: everyone_else →
  confirm_answers w = true :: cs →
  ∃ rest,
    events (simulate_start g t config nodes false geth w) =
      deployment_events g nodes geth origin everyone_else
        (hd "" (urandom_results w)) (hd "" (tl (urandom_results w))) ++ rest ∧
    ∀ p, DEFAULT_SIMULATION_REGISTRY_FILEPATH g = Some p →
         head rest = Some (RegistryCommit p).
Proof.
  intros Ha Hc.
  destruct (bootstrap_accepted g t nodes geth w origin everyone_else cs Ha Hc)
    as [He Hr].
  unfold simulate_start. cbn [negb].
  destruct (bind_events_prefix
              (l <- bootstrap_blockchain g t nodes geth ;; ret (Some l))
              (fun everyone_else =>
                 echo ReadyToRunSwarm ;;
                 items <- enumerate_addresses
                            match everyone_else with
                            | Some l => PyList l
                            | None => PyNotImplemented
                            end 8787 ;;
                 counter <- spawn_loop g t false 0 items ;;
                 echo StartingReactor ;;
                 confirm "Start the reactor?" true ;;
                 try_finally (reactor_run t) (cleanup g config false)) w)
    as [rest Hrest].
  rewrite Hrest. clear Hrest.
  rewrite bind_unfold, Hr, He.
  destruct (DEFAULT_SIMULATION_REGISTRY_FILEPATH g) as [p|]; cbn [events ret].
  - exists (RegistryCommit p :: rest). split.
    + now rewrite app_nil_r, <- app_assoc.
    + intros p' Hp. injection Hp as <-. reflexivity.
  - exists rest. split; [now rewrite app_nil_r | discriminate].
Qed.

(** C8, as amended, at work: three accounts, the operator accepts. *)
Lemma deployment_order_witness :
  let g := with_registry_path "sim-registry.json" sample_globals in
  let t := sample_tester ["0xO"; "0xA"; "0xB"] None in
  let w := initial_world tt [true; true] [] in
  (w3_accounts t 3 = "0xO" :: ["0xA"; "0xB"] ∧
   confirm_answers w = true :: [true]) ∧
  ∃ rest,
    events (simulate_start g t (click_config ["0xO"; "0xA"; "0xB"]) 3 false false w) =
      deployment_events g 3 false "0xO" ["0xA"; "0xB"]
        (hd "" (urandom_results w)) (hd "" (tl (urandom_results w))) ++ rest ∧
    ∀ p, DEFAULT_SIMULATION_REGISTRY_FILEPATH g = Some p →
         head rest = Some (RegistryCommit p).
Proof.
  intros g t w.
  assert (Ha : w3_accounts t 3 = "0xO" :: ["0xA"; "0xB"]) by reflexivity.
  assert (Hc : confirm_answers w = true :: [true]) by reflexivity.
  split; [split; assumption|].
  exact (deployment_order g t (click_config ["0xO"; "0xA"; "0xB"]) 3 false w
           "0xO" ["0xA"; "0xB"] [true] Ha Hc).
Defined.

(** As the module is written, a non-federated start on three accounts in
    which the operator accepts the deployment raises [NameError] at the
    registry commit, before any worker is spawned. *)
Example start_as_written :
  let o := sample_simulation sample_globals [true; true] None in
  res o = Raise (NameError "DEFAULT_SIMULATION_REGISTRY_FILEPATH") ∧
  spawns (events o) = [] ∧
  List.filter is_reactor_run (events o) = [] ∧
  last (events o) = Some (Echo WritingRegistry).
Proof. vm_compute. repeat split. Qed.

(** * Further properties of the commands *)

(** ** [stake]: the actions other than [init] *)

Section StakeActions.

Context {L : Type} `{LedgerGateway L}.

Lemma stake_unfold (config : NucypherClickConfig) (action : string)
    (address : option string) (index value duration : pyval) (w : World L) :
  stake config action address index value duration w =
  match res (select_address config address index w) with
  | Ok ai =>
      mkOutcome
        (res (stake_branch action ai.1 ai.2 value
                (world (select_address config address index w))))
        (world (stake_branch action ai.1 ai.2 value
                  (world (select_address config address index w))))
        (ConnectToContracts ::
           events (select_address config address index w) ++
           events (stake_branch action ai.1 ai.2 value
                     (world (select_address config address index w))))
  | Raise e =>
      mkOutcome (Raise e) (world (select_address config address index w))
        (ConnectToContracts :: events (select_address config address index w))
  end.
Proof.
  unfold stake. rewrite bind_unfold. cbn [emit res world events].
  rewrite bind_unfold.
  destruct (res (select_address config address index w)); reflexivity.
Qed.

Lemma stake_given (config : NucypherClickConfig) (action : string)
    (a : Address) (index value duration : pyval) (w : World L) :
  a ≠ "" →
  stake config action (Some a) index value duration w =
  mkOutcome (res (stake_branch action a index value w))
    (world (stake_branch action a index value w))
    (ConnectToContracts :: events (stake_branch action a index value w)).
Proof.
  intros Ha. rewrite stake_unfold, select_address_given by exact Ha.
  reflexivity.
Qed.

Lemma rows_not_ledger_calls {A} (f : A → message) (l : list A) :
  List.filter is_ledger_call (map (fun x => Echo (f x)) l) = [].
Proof. induction l as [|x l IH]; simpl; auto. Qed.

Lemma rows_not_divisions {A} (f : A → message) (l : list A) :
  divisions (map (fun x => Echo (f x)) l) = [].
Proof. induction l as [|x l IH]; simpl; auto. Qed.

Lemma in_rows_is_echo {A} (f : A → message) (l : list A) (e : event) :
  In e (map (fun x => Echo (f x)) l) → ∃ m, e = Echo m.
Proof.
  intros Hin. apply in_map_iff in Hin as (x & <- & _). eauto.
Qed.

(** X1 — [stake confirm-activity] submits an activity confirmation exactly
    when the address has a stake: without one it raises the
    no-active-stakes [RuntimeError] and nothing reaches the ledger; with
    one it submits a single confirmation for that address and ends the way
    the ledger ends. *)
Theorem confirm_activity_needs_stake (config : NucypherClickConfig)
    (a : Address) (index value duration : pyval) (w : World L) :
  a ≠ "" →
  (get_all_stakes (ledger w) a = [] →
   stake config "confirm-activity" (Some a) index value duration w =
     mkOutcome (Raise (RuntimeError ("There are no active stakes for " +:+ a)))
       w [ConnectToContracts]) ∧
  (get_all_stakes (ledger w) a ≠ [] →
   events (stake config "confirm-activity" (Some a) index value duration w) =
     [ConnectToContracts; ConfirmActivity a] ∧
   res (stake config "confirm-activity" (Some a) index value duration w) =
     match confirm_activity a (ledger w) with
     | Ok _ => Ok tt
     | Raise e => Raise e
     end).
Proof.
  intros Ha. rewrite stake_given by exact Ha.
  unfold stake_branch. cbn [String.eqb Ascii.eqb Bool.eqb].
  unfold stake_confirm_activity, bind, read_ledger, raise, ledger_call.
  split; intros Hs.
  - rewrite Hs. reflexivity.
  - destruct (get_all_stakes (ledger w) a) as [|s ss]; [contradiction|]. cbn.
    destruct (confirm_activity a (ledger w)); split; reflexivity.
Qed.

Lemma stake_init_deposit_gated (a : Address) (w : World L) :
  deposits (events (stake_init a w)) = [] ∨
  ∃ v d,
    deposits (events (stake_init a w)) = [DepositTokens v d a] ∧
    In (Confirm "Stage a new stake?" true) (events (stake_init a w)) ∧
    In (Confirm "Is this correct?" true) (events (stake_init a w)) ∧
    In (Prompt "Enter stake value" v) (events (stake_init a w)) ∧
    In (Prompt "Enter stake duration in days" d) (events (stake_init a w)).
Proof.
  unfold stake_init, bind, confirm, read_ledger, echo, emit, prompt_int,
    raise, ret, ledger_call, spawnProcess.
  destruct (confirm_answers w) as [|[|] cs]; cbn; try (left; reflexivity).
  destruct (get_all_stakes (ledger w) a) as [|s0 ss]; cbn;
    try (left; reflexivity).
  destruct (int_answers w) as [|v [|d ds]]; cbn; try (left; reflexivity).
  destruct cs as [|[|] cs']; cbn; try (left; reflexivity).
  right. exists v, d.
  destruct (deposit_tokens v d a (ledger w)); cbn;
    (split; [reflexivity|]);
    repeat split; repeat first [left; reflexivity | right].
Qed.

(** X2 — whatever the operator, the options and the ledger do,
    [stake init] submits at most one deposit, and it submits one only
    after both confirmations were accepted; its amount and its lock are
    the two integers the operator typed at the prompts. *)
Theorem deposit_needs_both_confirmations (config : NucypherClickConfig)
    (address : option string) (index value duration : pyval) (w : World L) :
  deposits (events (stake config "init" address index value duration w)) = [] ∨
  ∃ a v d,
    deposits (events (stake config "init" address index value duration w))
      = [DepositTokens v d a] ∧
    In (Confirm "Stage a new stake?" true)
       (events (stake config "init" address index value duration w)) ∧
    In (Confirm "Is this correct?" true)
       (events (stake config "init" address index value duration w)) ∧
    In (Prompt "Enter stake value" v)
       (events (stake config "init" address index value duration w)) ∧
    In (Prompt "Enter stake duration in days" d)
       (events (stake config "init" address index value duration w)).
Proof.
  rewrite stake_unfold.
  destruct (select_address_quiet config address index w) as (Hq & _).
  assert (Hnone : deposits (events (select_address config address index w)) = [])
    by (now apply filter_none with (Q := is_dialogue); [|intros []]).
  destruct (res (select_address config address index w)) as [ai|e];
    cbn [events]; unfold deposits in *; cbn [List.filter is_deposit];
    [|left; exact Hnone].
  rewrite List.filter_app, Hnone. cbn [app].
  unfold stake_branch. cbn [String.eqb Ascii.eqb Bool.eqb].
  destruct (stake_init_deposit_gated ai.1
              (world (select_address config address index w)))
    as [Hd|(v & d & Hd & H1 & H2 & H3 & H4)]; [left; exact Hd|].
  right. exists ai.1, v, d. split; [exact Hd|].
  repeat split; right; apply in_or_app; right; assumption.
Qed.

Lemma stake_divide_gated (a : Address) (index value : pyval) (w : World L) :
  divisions (events (stake_divide a index value w)) = [] ∨
  ∃ i ext s t,
    divisions (events (stake_divide a index value w))
      = [DivideStake a (PyInt i) value ext] ∧
    py_index (get_all_stakes (ledger w) a) i = Ok s ∧
    In (Echo (DividePreview s t (t + ext))) (events (stake_divide a index value w)) ∧
    In (Confirm "Is this correct?" true) (events (stake_divide a index value w)).
Proof.
  unfold stake_divide, subscript, echo.
  rewrite bind_unfold. cbn [read_ledger res world events].
  destruct (get_all_stakes (ledger w) a) as [|s0 ss] eqn:Hs;
    cbn [length Nat.eqb]; [left; reflexivity|].
  rewrite bind_unfold.
  destruct (truthy index) eqn:Ht; cbn [negb].
  - cbn [ret res world events].
    unfold bind, prompt_int, lift, emit, confirm, ledger_call, raise, ret.
    destruct (int_answers w) as [|t [|e ints]]; cbn; try (left; reflexivity).
    destruct index as [|i|s]; cbn; try (left; reflexivity).
    destruct (py_index (s0 :: ss) i) as [st|x] eqn:Hi; cbn;
      [|left; reflexivity].
    destruct (confirm_answers w) as [|[|] cs]; cbn; try (left; reflexivity).
    right. exists i, e, st, t.
    destruct (divide_stake a (PyInt i) value e (ledger w)); cbn;
      (split; [reflexivity|]; split; [exact Hi|]; split;
       repeat first [left; reflexivity | right]).
  - rewrite bind_unfold,
      (for_each_emit _ (fun row => Echo (StakeSelectionRow row.1 row.2))).
    cbn [res world events].
    assert (Hrows : ∀ l : list (Z * StakeInfo),
               divisions
                 (map (fun row => Echo (StakeSelectionRow row.1 row.2)) l) = [])
      by (intros l; apply rows_not_divisions).
    unfold bind, prompt_int, lift, emit, confirm, ledger_call, raise, ret.
    destruct (int_answers w) as [|i [|t [|e ints]]]; cbn -[enumerate];
      unfold divisions in *; rewrite ?List.filter_app, ?Hrows;
      try (left; reflexivity).
    destruct (py_index (s0 :: ss) i) as [st|x] eqn:Hi; cbn -[enumerate];
      rewrite ?List.filter_app, ?Hrows; [|left; reflexivity].
    destruct (confirm_answers w) as [|[|] cs]; cbn -[enumerate];
      rewrite ?List.filter_app, ?Hrows; try (left; reflexivity).
    right. exists i, e, st, t.
    destruct (divide_stake a (PyInt i) value e (ledger w)); cbn -[enumerate];
      rewrite ?List.filter_app, ?Hrows;
      (split; [reflexivity|]; split; [exact Hi|]; split; apply in_or_app; right;
       repeat first [left; reflexivity | right]).
Qed.

(** X3 — [stake divide] submits at most one division, and it submits one
    only for an index that selects one of the stakes of the address by
    Python's indexing, after the preview of that stake was shown and the
    confirmation accepted; an index out of range never reaches the
    ledger. *)
Theorem division_needs_stake_and_confirmation (config : NucypherClickConfig)
    (address : option string) (index value duration : pyval) (w : World L) :
  divisions (events (stake config "divide" address index value duration w)) = [] ∨
  ∃ a i ext s t,
    divisions (events (stake config "divide" address index value duration w))
      = [DivideStake a (PyInt i) value ext] ∧
    py_index (get_all_stakes (ledger w) a) i = Ok s ∧
    In (Echo (DividePreview s t (t + ext)))
       (events (stake config "divide" address index value duration w)) ∧
    In (Confirm "Is this correct?" true)
       (events (stake config "divide" address index value duration w)).
Proof.
  rewrite stake_unfold.
  destruct (select_address_quiet config address index w) as (Hq & Hl & _).
  assert (Hnone : divisions (events (select_address config address index w)) = [])
    by (now apply filter_none with (Q := is_dialogue); [|intros []]).
  destruct (res (select_address config address index w)) as [ai|e];
    cbn [events]; unfold divisions in *; cbn [List.filter is_divide];
    [|left; exact Hnone].
  rewrite List.filter_app, Hnone. cbn [app].
  unfold stake_branch. cbn [String.eqb Ascii.eqb Bool.eqb].
  destruct (stake_divide_gated ai.1 ai.2 value
              (world (select_address config address index w)))
    as [Hd|(i & ext & s & t & Hd & Hi & H1 & H2)]; [left; exact Hd|].
  right. exists ai.1, i, ext, s, t. split; [exact Hd|].
  rewrite <- Hl. split; [exact Hi|].
  split; right; apply in_or_app; right; assumption.
Qed.


Lemma choose_address_result (config : NucypherClickConfig) (index : pyval)
    (w : World L) (ai : Address * pyval) :
  res (choose_address config index w) = Ok ai →
  accounts config ≠ [] →
  ai.2 = PyInt (Z.of_nat (length (accounts config)) - 1).
Proof.
  unfold choose_address, echo.
  rewrite bind_unfold, (for_each_emit _ (fun ia => Echo (AccountRow ia.1 ia.2))).
  cbn [res world events].
  unfold bind, emit, prompt_int, lift, ret.
  destruct (int_answers w) as [|z zs]; cbn; [discriminate|].
  destruct (py_index (accounts config) z); cbn; [|discriminate].
  intros [= <-] Hne. cbn.
  destruct (accounts config); [contradiction|reflexivity].
Qed.

Lemma stake_divide_keeps_truthy_index (a : Address) (index value : pyval)
    (w : World L) (e : event) :
  truthy index = true →
  In e (events (stake_divide a index value w)) →
  (∀ z, e ≠ Prompt "Select a stake to divide" z) ∧
  (is_divide e = true → ∃ p, e = DivideStake a index value p).
Proof.
  intros Ht.
  assert (Hleaf : ∀ es : list event,
             Forall (fun x => (∀ z, x ≠ Prompt "Select a stake to divide" z) ∧
                              (is_divide x = true →
                               ∃ p, x = DivideStake a index value p)) es →
             In e es →
             (∀ z, e ≠ Prompt "Select a stake to divide" z) ∧
             (is_divide e = true → ∃ p, e = DivideStake a index value p)).
  { intros es Hall Hin. rewrite Forall_forall in Hall. apply Hall.
    now apply list_elem_of_In. }
  assert (Hstep : ∀ x : event,
             (∀ z, x ≠ Prompt "Select a stake to divide" z) →
             is_divide x = false →
             (∀ z, x ≠ Prompt "Select a stake to divide" z) ∧
             (is_divide x = true → ∃ p, x = DivideStake a index value p)).
  { intros x Hx Hd. split; [exact Hx|]. rewrite Hd. discriminate. }
  unfold stake_divide, subscript, echo, bind, read_ledger, prompt_int, lift,
    emit, confirm, ledger_call, raise, ret.
  destruct (get_all_stakes (ledger w) a) as [|s0 ss]; cbn -[In];
    [apply Hleaf; apply Forall_nil_2|].
  rewrite Ht. cbn -[In].
  destruct (int_answers w) as [|t [|x ints]]; cbn -[In];
    try (apply Hleaf; repeat apply Forall_cons_2; try apply Forall_nil_2;
         (apply Hstep; [intros z; discriminate | reflexivity])).
  destruct index as [|i|s]; cbn -[In];
    try (apply Hleaf; repeat apply Forall_cons_2; try apply Forall_nil_2;
         (apply Hstep; [intros z; discriminate | reflexivity])).
  destruct (py_index (s0 :: ss) i); cbn -[In];
    try (apply Hleaf; repeat apply Forall_cons_2; try apply Forall_nil_2;
         (apply Hstep; [intros z; discriminate | reflexivity])).
  destruct (confirm_answers w) as [|[|] cs]; cbn -[In];
    try (apply Hleaf; repeat apply Forall_cons_2; try apply Forall_nil_2;
         (apply Hstep; [intros z; discriminate | reflexivity])).
  destruct (divide_stake a (PyInt i) value x (ledger w)); cbn -[In];
    apply Hleaf; repeat apply Forall_cons_2; try apply Forall_nil_2;
    first [ apply Hstep; [intros z; discriminate | reflexivity]
          | split; [intros z; discriminate | intros _; eauto] ].
Qed.

Lemma choose_address_plain (config : NucypherClickConfig) (index : pyval) :
  emits_only (L:=L)
    (fun e => negb (is_divide e) && negb (asks_for_stake e))
    (choose_address config index).
Proof. unfold choose_address. emits_auto. Qed.

(** X5 — the loop that lists the accounts rebinds [index].  When
    [stake divide] runs without an [--address] on a chain with [n ≥ 2]
    accounts, the operator is never asked which stake to divide and every
    division submitted is for the stake of index [n - 1], whatever
    [--index] held. *)
Theorem divide_index_left_by_account_listing (config : NucypherClickConfig)
    (index value duration : pyval) (w : World L)
    (a0 a1 : Address) (more : list Address) (e : event) :
  accounts config = a0 :: a1 :: more →
  In e (events (stake config "divide" None index value duration w)) →
  (∀ z, e ≠ Prompt "Select a stake to divide" z) ∧
  (is_divide e = true →
   ∃ a p, e = DivideStake a (PyInt (Z.of_nat (length (accounts config)) - 1))
                value p).
Proof.
  intros Hacc. rewrite stake_unfold. cbn [select_address].
  assert (Hdial : ∀ x, In x (events (choose_address config index w)) →
                       (∀ z, x ≠ Prompt "Select a stake to divide" z) ∧
                       is_divide x = false).
  { intros x Hin.
    pose proof (choose_address_plain config index w) as Hall.
    rewrite forallb_forall in Hall. specialize (Hall x Hin).
    apply andb_prop in Hall as [Hd Hq].
    split; [|now apply negb_true_iff in Hd].
    intros z ->. discriminate Hq. }
  destruct (res (choose_address config index w)) as [ai|x] eqn:Hres;
    cbn [events].
  - assert (Hidx : ai.2 = PyInt (Z.of_nat (length (accounts config)) - 1))
      by (eapply choose_address_result; [exact Hres | rewrite Hacc; discriminate]).
    unfold stake_branch. cbn [String.eqb Ascii.eqb Bool.eqb].
    intros [<-|Hin]; [split; [discriminate|discriminate]|].
    apply in_app_or in Hin as [Hin|Hin].
    + destruct (Hdial e Hin) as [H1 H2]. split; [exact H1|congruence].
    + rewrite Hidx in Hin.
      apply stake_divide_keeps_truthy_index in Hin as [H1 H2].
      * split; [exact H1|]. intros Hd. destruct (H2 Hd) as [p ->]. eauto.
      * rewrite Hacc. cbn [length truthy].
        destruct (Z.of_nat (S (S (length more))) - 1 =? 0) eqn:E;
          [apply Z.eqb_eq in E; lia | reflexivity].
  - intros [<-|Hin]; [split; [discriminate|discriminate]|].
    destruct (Hdial e Hin) as [H1 H2]. split; [exact H1|congruence].
Qed.

(** X6 — the prompt for the account announces the range "0-n" where [n]
    is the number of accounts, but [n] itself is not an index of the list:
    an operator who enters the upper bound gets an [IndexError], before
    any confirmation is asked and before the ledger is touched, whatever
    the action. *)
Theorem account_prompt_upper_bound_rejected (config : NucypherClickConfig)
    (action : string) (index value duration : pyval) (w : World L)
    (ints : list Z) :
  int_answers w = Z.of_nat (length (accounts config)) :: ints →
  res (stake config action None index value duration w)
    = Raise (IndexError "list index out of range") ∧
  last (events (stake config action None index value duration w))
    = Some (Prompt ("Enter 0-" +:+ str_of_int (Z.of_nat (length (accounts config))))
              (Z.of_nat (length (accounts config)))) ∧
  List.filter is_ledger_call
    (events (stake config action None index value duration w)) = [] ∧
  ledger (world (stake config action None index value duration w)) = ledger w ∧
  confirm_answers (world (stake config action None index value duration w))
    = confirm_answers w.
Proof.
  intros Hi. rewrite stake_unfold. cbn [select_address].
  unfold choose_address, echo.
  rewrite bind_unfold, (for_each_emit _ (fun ia => Echo (AccountRow ia.1 ia.2))).
  cbn [res world events].
  unfold bind, emit, prompt_int, lift, ret. rewrite Hi. cbn -[enumerate].
  assert (Hidx : py_index (accounts config) (Z.of_nat (length (accounts config)))
                 = Raise (IndexError "list index out of range")).
  { unfold py_index.
    destruct (Z.of_nat (length (accounts config)) <? 0) eqn:E;
      [apply Z.ltb_lt in E; lia|].
    rewrite E. cbn. rewrite Z.leb_refl. reflexivity. }
  rewrite Hidx. cbn -[enumerate].
  split; [reflexivity|]. split.
  - rewrite app_comm_cons, last_app. reflexivity.
  - rewrite List.filter_app, rows_not_ledger_calls. repeat split.
Qed.

(** X7 — only [init], [confirm-activity] and [divide] can reach the
    ledger.  For every other action ([list], [resume], [collect-reward],
    [abort], or a word that is no action at all) and every input, the
    command hands no transaction to the ledger and leaves it as it was. *)
Theorem other_actions_leave_ledger (config : NucypherClickConfig)
    (action : string) (address : option string)
    (index value duration : pyval) (w : World L) :
  action ≠ "init" → action ≠ "confirm-activity" → action ≠ "divide" →
  List.filter is_ledger_call
    (events (stake config action address index value duration w)) = [] ∧
  ledger (world (stake config action address index value duration w)) = ledger w.
Proof.
  intros Hinit Hconfirm Hdivide. rewrite stake_unfold.
  destruct (select_address_quiet config address index w) as (Hq & Hl & _).
  assert (Hnone : List.filter is_ledger_call
                    (events (select_address config address index w)) = [])
    by (now apply filter_none with (Q := is_dialogue); [|intros []]).
  destruct (res (select_address config address index w)) as [ai|e];
    cbn [events world]; cbn [List.filter is_ledger_call is_deposit is_divide
                               is_confirm_activity orb];
    [|split; [exact Hnone | exact Hl]].
  rewrite List.filter_app, Hnone. cbn [app]. rewrite <- Hl.
  unfold stake_branch.
  destruct (String.eqb action "list") eqn:E1.
  { unfold stake_list. rewrite bind_unfold. cbn [read_ledger res world events].
    unfold echo.
    rewrite (for_each_emit _ (fun row => Echo (StakeRow row.1 row.2))).
    cbn [events world app]. split; [apply rows_not_ledger_calls | reflexivity]. }
  destruct (String.eqb action "init") eqn:E2;
    [apply String.eqb_eq in E2; contradiction|].
  destruct (String.eqb action "resume") eqn:E3; [split; reflexivity|].
  destruct (String.eqb action "confirm-activity") eqn:E4;
    [apply String.eqb_eq in E4; contradiction|].
  destruct (String.eqb action "divide") eqn:E5;
    [apply String.eqb_eq in E5; contradiction|].
  destruct (String.eqb action "collect-reward") eqn:E6; [split; reflexivity|].
  destruct (String.eqb action "abort") eqn:E7; [|split; reflexivity].
  unfold stake_abort, bind, confirm, raise.
  destruct (confirm_answers (world (select_address config address index w)))
    as [|[|] cs]; split; reflexivity.
Qed.

End StakeActions.

(** X1 at work, on an address without a stake and on one with a stake. *)
Lemma confirm_activity_needs_stake_witness :
  "0xA" ≠ "" ∧
  get_all_stakes (ledger (fresh_world [] [])) "0xA" = [] ∧
  stake sample_config "confirm-activity" (Some "0xA") PyNone PyNone PyNone
    (fresh_world [] []) =
    mkOutcome (Raise (RuntimeError ("There are no active stakes for " +:+ "0xA")))
      (fresh_world [] []) [ConnectToContracts].
Proof.
  assert (Ha : "0xA" ≠ "") by discriminate.
  assert (Hs : get_all_stakes (ledger (fresh_world [] [])) "0xA" = [])
    by (vm_compute; reflexivity).
  split; [exact Ha|]. split; [exact Hs|].
  exact (proj1 (confirm_activity_needs_stake sample_config "0xA" PyNone PyNone
                  PyNone (fresh_world [] []) Ha) Hs).
Defined.


(** X5 at work: three accounts, no [--address], [--index 0]; the operator
    picks the account [0xA], which has three stakes, and the division is
    submitted for stake 2. *)
Lemma divide_index_left_by_account_listing_witness :
  let w := three_stakes_world [true] [1; 400; 5] in
  let e := DivideStake "0xA" (PyInt 2) PyNone 5 in
  (accounts sample_config = "0xO" :: "0xA" :: ["0xB"] ∧
   In e (events (stake sample_config "divide" None (PyStr "0") PyNone PyNone w))) ∧
  (∀ z, e ≠ Prompt "Select a stake to divide" z) ∧
  (is_divide e = true →
   ∃ a p, e = DivideStake a (PyInt (Z.of_nat (length (accounts sample_config)) - 1))
                PyNone p).
Proof.
  intros w e.
  assert (Hacc : accounts sample_config = "0xO" :: "0xA" :: ["0xB"]) by reflexivity.
  assert (Hin : In e (events (stake sample_config "divide" None (PyStr "0")
                                PyNone PyNone w))).
  { vm_compute. repeat first [left; reflexivity | right]. }
  split; [split; assumption|].
  exact (divide_index_left_by_account_listing sample_config (PyStr "0") PyNone
           PyNone w "0xO" "0xA" ["0xB"] e Hacc Hin).
Defined.

(** X6 at work: three accounts, the operator enters 3. *)
Lemma account_prompt_upper_bound_rejected_witness :
  let w := fresh_world [true; true] [3; 300; 30] in
  int_answers w = Z.of_nat (length (accounts sample_config)) :: [300; 30] ∧
  res (stake sample_config "init" None PyNone PyNone PyNone w)
    = Raise (IndexError "list index out of range").
Proof.
  intros w.
  assert (Hi : int_answers w
               = Z.of_nat (length (accounts sample_config)) :: [300; 30])
    by reflexivity.
  split; [exact Hi|].
  exact (proj1 (account_prompt_upper_bound_rejected sample_config "init" PyNone
                  PyNone PyNone w [300; 30] Hi)).
Defined.

(** X7 at work on [resume]. *)
Lemma other_actions_leave_ledger_witness :
  let w := staked_world [] [] in
  ("resume" ≠ "init" ∧ "resume" ≠ "confirm-activity" ∧ "resume" ≠ "divide") ∧
  List.filter is_ledger_call
    (events (stake sample_config "resume" (Some "0xA") PyNone PyNone PyNone w)) = [] ∧
  ledger (world (stake sample_config "resume" (Some "0xA") PyNone PyNone PyNone w))
    = ledger w.
Proof.
  intros w.
  assert (H1 : "resume" ≠ "init") by discriminate.
  assert (H2 : "resume" ≠ "confirm-activity") by discriminate.
  assert (H3 : "resume" ≠ "divide") by discriminate.
  split; [repeat split; assumption|].
  exact (other_actions_leave_ledger sample_config "resume" (Some "0xA") PyNone
           PyNone PyNone w H1 H2 H3).
Defined.

(** ** [simulate start] as the module is written *)

Section StartAsWritten.

Context {L : Type}.

(** Without the registry path the opening block ends in one of three
    ways, each short of the registry commit: the chain has no account to
    unpack, the operator does not accept the deployment, or the read of
    the unbound name raises. *)
Lemma bootstrap_stops_short (g : Globals) (t : Tester) (nodes : Z)
    (geth : bool) (w : World L) :
  as_written g →
  res (bootstrap_blockchain g t nodes geth w) =
    Raise match w3_accounts t nodes with
          | [] => ValueError "not enough values to unpack (expected at least 1, got 0)"
          | _ :: _ =>
              match confirm_answers w with
              | true :: _ => NameError "DEFAULT_SIMULATION_REGISTRY_FILEPATH"
              | _ => Abort
              end
          end ∧
  List.filter past_deployment (events (bootstrap_blockchain g t nodes geth w)) = [] ∧
  next_pid (world (bootstrap_blockchain g t nodes geth w)) = next_pid w.
Proof.
  unfold as_written. intros Hg.
  unfold bootstrap_blockchain, bind, echo, emit, confirm, urandom,
    read_global, raise, ret.
  destruct (w3_accounts t nodes) as [|origin everyone_else]; cbn;
    [repeat split|].
  destruct (confirm_answers w) as [|[|] cs]; cbn; [repeat split | |
    destruct geth; repeat split].
  rewrite Hg. cbn. destruct geth; repeat split.
Qed.

(** X8 — as [main.py] is written, [simulate start] never gets as far as
    the swarm.  Whatever the options, the chain and the answers of the
    operator, the command ends with an exception: [TypeError] in
    federated-only mode, where [sim_addresses] is [NotImplemented]; and
    otherwise [ValueError] on a chain without accounts, click's [Abort]
    when the deployment is not accepted, and [NameError] on
    [DEFAULT_SIMULATION_REGISTRY_FILEPATH] when it is.  On the way it
    commits no registry, initializes no stake, spawns no process, does not
    ask whether to start the reactor, does not run it, and removes and
    kills nothing. *)
Theorem start_stops_before_swarm (g : Globals) (t : Tester)
    (config : NucypherClickConfig) (nodes : Z) (federated_only geth : bool)
    (w : World L) :
  as_written g →
  res (simulate_start g t config nodes federated_only geth w) =
    Raise (if federated_only
           then TypeError "'NotImplementedType' object is not iterable"
           else match w3_accounts t nodes with
                | [] => ValueError "not enough values to unpack (expected at least 1, got 0)"
                | _ :: _ =>
                    match confirm_answers w with
                    | true :: _ => NameError "DEFAULT_SIMULATION_REGISTRY_FILEPATH"
                    | _ => Abort
                    end
                end) ∧
  List.filter past_deployment
    (events (simulate_start g t config nodes federated_only geth w)) = [] ∧
  next_pid (world (simulate_start g t config nodes federated_only geth w))
    = next_pid w.
Proof.
  intros Hg. destruct federated_only.
  - rewrite simulate_start_federated. repeat split.
  - destruct (bootstrap_stops_short g t nodes geth w Hg) as (Hr & He & Hp).
    unfold simulate_start. cbn [negb].
    rewrite bind_unfold, bind_unfold, Hr. cbn [res world events].
    repeat split; assumption.
Qed.

End StartAsWritten.

(** X8 at work: three accounts, the operator accepts the deployment. *)
Lemma start_stops_before_swarm_witness :
  let t := sample_tester ["0xO"; "0xA"; "0xB"] None in
  let w := initial_world tt [true; true] [] in
  as_written sample_globals ∧
  res (simulate_start sample_globals t sample_config 3 false false w) =
    Raise (NameError "DEFAULT_SIMULATION_REGISTRY_FILEPATH") ∧
  List.filter past_deployment
    (events (simulate_start sample_globals t sample_config 3 false false w)) = [] ∧
  next_pid (world (simulate_start sample_globals t sample_config 3 false false w))
    = next_pid w.
Proof.
  intros t w.
  assert (Hg : as_written sample_globals) by reflexivity.
  split; [exact Hg|].
  exact (start_stops_before_swarm sample_globals t sample_config 3 false false
           w Hg).
Defined.
